(** * Helpdesk ticket workflow: the controllers over an explicit ticket store

    A shallow embedding of the ticket controllers
    (controllers/ticketController.ts, controllers/escalationController.ts),
    the Ticket schema with its pre('save') hook (models/Ticket.ts), the
    role middleware (middleware/auth.ts) and the ticket routes
    (routes/tickets.ts).

    Modelling choices.
    - The tickets collection is a finite map from the document id to the
      ticket; [Ticket.findById] is lookup, [ticket.save()] runs the
      schema's pre('save') hook and then writes the whole document.
    - A handler is a function from the request and the collection to the
      HTTP response and the collection after the request.
    - [req.user] is what [authenticateToken] left on the request: absent,
      or an id, a role and a user name.  The role is a string, as in
      [AuthRequest], and is compared with string equality.
    - Request bodies are taken after the validation middleware of their
      route, so a validated enum field carries the enum's type.  Fields
      that a controller checks by itself stay strings.
    - [new Date()] reads the clock of the request context.
    - [populate] only expands user references in the response and is left
      out.  So are the ODM's own field casting and the schema's field
      validators (required, enum, maxlength, trim, the future-date check of
      expectedCompletionDate): they belong to the persistence layer, and a
      [save] of this model fails through the pre('save') hook only. *)

From stdpp Require Import gmap strings list fin_maps sorting.

Open Scope string_scope.

(** ** Data model (models/Ticket.ts) *)

Inductive Level := L1 | L2 | L3.
Inductive Status := New | Attending | Completed | Escalated | Resolved.
Inductive CriticalValue := C1 | C2 | C3.
Inductive Priority := Low | Medium | High.

#[global] Instance Level_eq_dec : EqDecision Level.
Proof. solve_decision. Defined.
#[global] Instance Status_eq_dec : EqDecision Status.
Proof. solve_decision. Defined.
#[global] Instance CriticalValue_eq_dec : EqDecision CriticalValue.
Proof. solve_decision. Defined.
#[global] Instance Priority_eq_dec : EqDecision Priority.
Proof. solve_decision. Defined.

(** The string each enum value is in the source. *)
Definition level_name (l : Level) : string :=
  match l with L1 => "L1" | L2 => "L2" | L3 => "L3" end.

Definition status_name (s : Status) : string :=
  match s with
  | New => "New" | Attending => "Attending" | Completed => "Completed"
  | Escalated => "Escalated" | Resolved => "Resolved"
  end.

Definition critical_name (c : CriticalValue) : string :=
  match c with C1 => "C1" | C2 => "C2" | C3 => "C3" end.

Definition priority_name (p : Priority) : string :=
  match p with Low => "Low" | Medium => "Medium" | High => "High" end.

(** [['C1','C2','C3'].includes(x)] on a raw string, with the value found. *)
Definition critical_of_string (s : string) : option CriticalValue :=
  if String.eqb s "C1" then Some C1
  else if String.eqb s "C2" then Some C2
  else if String.eqb s "C3" then Some C3
  else None.

(** escalationSchema *)
Record Escalation := {
  fromLevel : Level;
  toLevel : Level;
  reason : string;
  escalatedBy : string;
  escalatedAt : Z;
  notes : option string
}.

(** actionLogSchema *)
Record ActionLog := {
  action : string;
  performedBy : string;
  performedAt : Z;
  details : option string;
  previousStatus : option Status;
  newStatus : option Status
}.

(** ticketSchema, with the two fields of [timestamps: true] *)
Record Ticket := {
  title : string;
  description : string;
  category : string;
  priority : Priority;
  status : Status;
  criticalValue : option CriticalValue;
  expectedCompletionDate : Z;
  createdBy : string;
  assignedTo : option string;
  currentLevel : Level;
  escalationHistory : list Escalation;
  actionLogs : list ActionLog;
  createdAt : Z;
  updatedAt : Z
}.

(** Field assignments on a loaded document. *)
Definition set_status (s : Status) (t : Ticket) : Ticket :=
  {| title := title t; description := description t; category := category t;
     priority := priority t; status := s; criticalValue := criticalValue t;
     expectedCompletionDate := expectedCompletionDate t;
     createdBy := createdBy t; assignedTo := assignedTo t;
     currentLevel := currentLevel t;
     escalationHistory := escalationHistory t; actionLogs := actionLogs t;
     createdAt := createdAt t; updatedAt := updatedAt t |}.

Definition set_criticalValue (c : CriticalValue) (t : Ticket) : Ticket :=
  {| title := title t; description := description t; category := category t;
     priority := priority t; status := status t; criticalValue := Some c;
     expectedCompletionDate := expectedCompletionDate t;
     createdBy := createdBy t; assignedTo := assignedTo t;
     currentLevel := currentLevel t;
     escalationHistory := escalationHistory t; actionLogs := actionLogs t;
     createdAt := createdAt t; updatedAt := updatedAt t |}.

Definition set_currentLevel (l : Level) (t : Ticket) : Ticket :=
  {| title := title t; description := description t; category := category t;
     priority := priority t; status := status t;
     criticalValue := criticalValue t;
     expectedCompletionDate := expectedCompletionDate t;
     createdBy := createdBy t; assignedTo := assignedTo t;
     currentLevel := l;
     escalationHistory := escalationHistory t; actionLogs := actionLogs t;
     createdAt := createdAt t; updatedAt := updatedAt t |}.

(** [ticket.escalationHistory.push(e)] *)
Definition push_escalation (e : Escalation) (t : Ticket) : Ticket :=
  {| title := title t; description := description t; category := category t;
     priority := priority t; status := status t;
     criticalValue := criticalValue t;
     expectedCompletionDate := expectedCompletionDate t;
     createdBy := createdBy t; assignedTo := assignedTo t;
     currentLevel := currentLevel t;
     escalationHistory := escalationHistory t ++ [e];
     actionLogs := actionLogs t;
     createdAt := createdAt t; updatedAt := updatedAt t |}.

(** [ticket.actionLogs.push(a)] *)
Definition push_actionLog (a : ActionLog) (t : Ticket) : Ticket :=
  {| title := title t; description := description t; category := category t;
     priority := priority t; status := status t;
     criticalValue := criticalValue t;
     expectedCompletionDate := expectedCompletionDate t;
     createdBy := createdBy t; assignedTo := assignedTo t;
     currentLevel := currentLevel t;
     escalationHistory := escalationHistory t;
     actionLogs := actionLogs t ++ [a];
     createdAt := createdAt t; updatedAt := updatedAt t |}.

(** The write stamps [updatedAt]. *)
Definition set_updatedAt (now : Z) (t : Ticket) : Ticket :=
  {| title := title t; description := description t; category := category t;
     priority := priority t; status := status t;
     criticalValue := criticalValue t;
     expectedCompletionDate := expectedCompletionDate t;
     createdBy := createdBy t; assignedTo := assignedTo t;
     currentLevel := currentLevel t;
     escalationHistory := escalationHistory t; actionLogs := actionLogs t;
     createdAt := createdAt t; updatedAt := now |}.

(** ** Requests and responses *)

(** [req.user] *)
Record AuthUser := {
  user_id : string;
  role : string;
  username : string
}.

(** What every handler reads besides its own parameters. *)
Record Context := {
  user : option AuthUser;
  now : Z
}.

Inductive ResponseData :=
| NoData
| TicketData (ticket : Ticket)
| ActionLogData (actionLog : option ActionLog)
| TicketsData (tickets : list (string * Ticket)) (totalItems : nat).

(** [res.status(httpStatus).json({success, message, data, errors})] *)
Record Response := {
  httpStatus : Z;
  success : bool;
  message : string;
  errors : list string;
  data : ResponseData
}.

Definition failure (code : Z) (msg : string) (errs : list string) : Response :=
  {| httpStatus := code; success := false; message := msg; errors := errs;
     data := NoData |}.

Definition ok (code : Z) (msg : string) (d : ResponseData) : Response :=
  {| httpStatus := code; success := true; message := msg; errors := [];
     data := d |}.

(** ** Persistence *)

(** ticketSchema.pre('save'): the error it passes to [next], if any. *)
Definition pre_save (t : Ticket) : option string :=
  if bool_decide (currentLevel t = L3)
     && bool_decide (criticalValue t = Some C3)
  then Some "C3 tickets cannot be escalated to L3. Only C1 and C2 tickets can reach L3."
  else None.

(** [await ticket.save()]: the stored document and the collection after the
    write, or the error thrown. *)
Definition save (now : Z) (id : string) (t : Ticket) (db : gmap string Ticket)
  : string + (Ticket * gmap string Ticket) :=
  match pre_save t with
  | Some err => inl err
  | None => let t' := set_updatedAt now t in inr (t', <[id := t']> db)
  end.

(** [[...].includes(ticket.criticalValue || '')] *)
Definition includes_critical (l : list CriticalValue)
    (c : option CriticalValue) : bool :=
  match c with
  | Some c => bool_decide (c ∈ l)
  | None => false
  end.

(** A template literal prints an absent value as [undefined]. *)
Definition show_opt (s : option string) : string :=
  match s with Some s => s | None => "undefined" end.

(** ** controllers/escalationController.ts *)

Definition resolveTicket (ctx : Context) (id : string)
    (resolution : option string) (db : gmap string Ticket)
  : Response * gmap string Ticket :=
  match user ctx with
  | None =>
      (failure 401 "Authentication required" ["User not authenticated"], db)
  | Some u =>
      if negb (bool_decide (role u ∈ ["L1"; "L2"; "L3"])) then
        (failure 403 "Only L1, L2, and L3 agents can resolve tickets"
           ["Insufficient permissions"], db)
      else
        match db !! id with
        | None => (failure 404 "Ticket not found" ["Ticket does not exist"], db)
        | Some ticket =>
            let canResolve :=
              if String.eqb (role u) "L1"
                 && bool_decide (currentLevel ticket = L1) then true
              else if String.eqb (role u) "L2"
                      && bool_decide (currentLevel ticket = L2) then true
              else if String.eqb (role u) "L3"
                      && bool_decide (currentLevel ticket = L3)
                      && includes_critical [C1; C2] (criticalValue ticket)
                   then true
              else false in
            if negb canResolve then
              (failure 403
                 (role u ++ " agents can only resolve tickets at "
                    ++ role u ++ " level")
                 ["Insufficient permissions for this ticket level"], db)
            else
              let previousStatus := status ticket in
              let ticket := set_status Resolved ticket in
              let ticket :=
                push_actionLog
                  {| action := "Ticket resolved";
                     performedBy := user_id u;
                     performedAt := now ctx;
                     details := Some ("Resolution: " ++ show_opt resolution);
                     previousStatus := Some previousStatus;
                     newStatus := Some Resolved |} ticket in
              match save (now ctx) id ticket db with
              | inl _ =>
                  (failure 500 "Failed to resolve ticket"
                     ["Internal server error"], db)
              | inr (ticket, db') =>
                  (ok 200 "Ticket resolved successfully" (TicketData ticket),
                   db')
              end
        end
  end.

(** Body of POST /:id/escalate after [validateTicketEscalation]. *)
Record EscalateBody := {
  eb_toLevel : Level;
  eb_reason : string;
  eb_notes : option string
}.

(** Truthiness of an optional string: absent and empty are both falsy. *)
Definition truthy (s : option string) : bool :=
  match s with
  | Some s => negb (String.eqb s "")
  | None => false
  end.

Definition escalateTicket (ctx : Context) (id : string) (body : EscalateBody)
    (db : gmap string Ticket) : Response * gmap string Ticket :=
  match user ctx with
  | None =>
      (failure 401 "Authentication required" ["User not authenticated"], db)
  | Some u =>
      let toLevel := eb_toLevel body in
      let reason := eb_reason body in
      let notes := eb_notes body in
      match db !! id with
      | None => (failure 404 "Ticket not found" ["Ticket does not exist"], db)
      | Some ticket =>
          let currentLevel := currentLevel ticket in
          let userRole := role u in
          if String.eqb userRole "L1" && negb (bool_decide (toLevel = L2)) then
            (failure 400 "L1 agents can only escalate to L2"
               ["Invalid escalation path"], db)
          else if String.eqb userRole "L2"
                  && negb (bool_decide (toLevel = L3)) then
            (failure 400 "L2 agents can only escalate to L3"
               ["Invalid escalation path"], db)
          else if String.eqb userRole "L3" then
            (failure 400 "L3 is the highest level, cannot escalate further"
               ["Invalid escalation attempt"], db)
          else if negb (String.eqb (level_name currentLevel) userRole) then
            (failure 403
               ("Can only escalate tickets at your current level ("
                  ++ userRole ++ ")")
               ["Ticket is not at your level"], db)
          else if String.eqb userRole "L2" && bool_decide (toLevel = L3)
                  && negb (bool_decide (is_Some (criticalValue ticket))) then
            (failure 400
               "Cannot escalate to L3 without critical value assignment"
               ["Critical value must be set before escalating to L3"], db)
          else if String.eqb userRole "L2" && bool_decide (toLevel = L3)
                  && bool_decide (criticalValue ticket = Some C3) then
            (failure 400 "C3 tickets cannot be escalated to L3"
               ["Only C1 and C2 tickets can be escalated to L3"], db)
          else
            let previousLevel := currentLevel in
            let ticket := set_currentLevel toLevel ticket in
            let ticket := set_status Escalated ticket in
            let ticket :=
              push_escalation
                {| fromLevel := previousLevel;
                   toLevel := toLevel;
                   reason := reason;
                   escalatedBy := user_id u;
                   escalatedAt := now ctx;
                   notes := notes |} ticket in
            let ticket :=
              push_actionLog
                {| action := "Ticket escalated from "
                               ++ level_name previousLevel ++ " to "
                               ++ level_name toLevel;
                   performedBy := user_id u;
                   performedAt := now ctx;
                   details :=
                     Some ("Reason: " ++ reason
                             ++ (if truthy notes
                                 then " | Notes: " ++ show_opt notes
                                 else ""));
                   previousStatus := Some (status ticket);
                   newStatus := Some Escalated |} ticket in
            match save (now ctx) id ticket db with
            | inl _ =>
                (failure 500 "Failed to escalate ticket"
                   ["Internal server error"], db)
            | inr (ticket, db') =>
                (ok 200
                   ("Ticket escalated successfully from "
                      ++ level_name previousLevel ++ " to "
                      ++ level_name toLevel)
                   (TicketData ticket), db')
            end
      end
  end.

(** Body of POST /:id/action-log after [validateActionLog]. *)
Record ActionLogBody := {
  ab_action : string;
  ab_details : option string
}.

Definition addActionLog (ctx : Context) (id : string) (body : ActionLogBody)
    (db : gmap string Ticket) : Response * gmap string Ticket :=
  match user ctx with
  | None =>
      (failure 401 "Authentication required" ["User not authenticated"], db)
  | Some u =>
      match db !! id with
      | None => (failure 404 "Ticket not found" ["Ticket does not exist"], db)
      | Some ticket =>
          let canAddLog :=
            (String.eqb (role u) "L1"
               && bool_decide (currentLevel ticket = L1))
            || (String.eqb (role u) "L2"
                  && bool_decide (currentLevel ticket ∈ [L1; L2]))
            || (String.eqb (role u) "L3"
                  && bool_decide (currentLevel ticket = L3)
                  && includes_critical [C1; C2] (criticalValue ticket)) in
          if negb canAddLog then
            (failure 403
               "You do not have permission to add action logs to this ticket"
               ["Insufficient permissions"], db)
          else
            let ticket :=
              push_actionLog
                {| action := ab_action body;
                   performedBy := user_id u;
                   performedAt := now ctx;
                   details := ab_details body;
                   previousStatus := None;
                   newStatus := None |} ticket in
            match save (now ctx) id ticket db with
            | inl _ =>
                (failure 500 "Failed to add action log"
                   ["Internal server error"], db)
            | inr (ticket, db') =>
                (ok 200 "Action log added successfully"
                   (ActionLogData (last (actionLogs ticket))), db')
            end
      end
  end.

(** ** controllers/ticketController.ts *)

(** Body of POST / after [validateTicketCreation]. *)
Record CreateBody := {
  cb_title : string;
  cb_description : string;
  cb_category : string;
  cb_priority : Priority;
  cb_expectedCompletionDate : Z
}.

(** [new Ticket({...})] as [createTicket] calls it: the schema defaults fill
    status, and neither a critical value nor an escalation is there yet. *)
Definition new_ticket (ctx : Context) (u : AuthUser) (body : CreateBody)
  : Ticket :=
  {| title := cb_title body;
     description := cb_description body;
     category := cb_category body;
     priority := cb_priority body;
     status := New;
     criticalValue := None;
     expectedCompletionDate := cb_expectedCompletionDate body;
     createdBy := user_id u;
     assignedTo := None;
     currentLevel := L1;
     escalationHistory := [];
     actionLogs :=
       [ {| action := "Ticket created";
            performedBy := user_id u;
            performedAt := now ctx;
            details := Some ("Ticket created with priority "
                               ++ priority_name (cb_priority body));
            previousStatus := None;
            newStatus := None |} ];
     createdAt := now ctx;
     updatedAt := now ctx |}.

(** The id of a new document is one no stored document has. *)
Definition new_id (db : gmap string Ticket) : string := fresh (dom db).

Definition createTicket (ctx : Context) (body : CreateBody)
    (db : gmap string Ticket) : Response * gmap string Ticket :=
  match user ctx with
  | None =>
      (failure 401 "Authentication required" ["User not authenticated"], db)
  | Some u =>
      if negb (String.eqb (role u) "L1") then
        (failure 403 "Only L1 agents can create tickets"
           ["Insufficient permissions"], db)
      else
        let ticket := new_ticket ctx u body in
        match save (now ctx) (new_id db) ticket db with
        | inl _ =>
            (failure 500 "Failed to create ticket" ["Internal server error"],
             db)
        | inr (ticket, db') =>
            (ok 201 "Ticket created successfully" (TicketData ticket), db')
        end
  end.

(** The query document [getTickets] builds: a JS object from a key to a
    value, a [{$in: [...]}] condition or, under [$and], a list of one-key
    documents.  Assigning to a key that is already there replaces it. *)
Inductive Clause :=
| Equals (v : string)
| AnyOf (vs : list string).

Inductive FilterValue :=
| Cond (c : Clause)
| AndOf (cs : list (string * Clause)).

(** The value a stored ticket has at a path of the query. *)
Definition field (path : string) (t : Ticket) : option string :=
  if String.eqb path "createdBy" then Some (createdBy t)
  else if String.eqb path "currentLevel" then Some (level_name (currentLevel t))
  else if String.eqb path "criticalValue" then critical_name <$> criticalValue t
  else if String.eqb path "status" then Some (status_name (status t))
  else if String.eqb path "priority" then Some (priority_name (priority t))
  else None.

Definition holds (t : Ticket) (path : string) (c : Clause) : bool :=
  match field path t, c with
  | Some x, Equals v => String.eqb x v
  | Some x, AnyOf vs => bool_decide (x ∈ vs)
  | None, _ => false
  end.

Definition matches (filter : gmap string FilterValue) (t : Ticket) : bool :=
  forallb
    (fun kv : string * FilterValue =>
       match kv.2 with
       | Cond c => holds t kv.1 c
       | AndOf cs => forallb (fun pc : string * Clause => holds t pc.1 pc.2) cs
       end)
    (map_to_list filter).

(** [Ticket.find(filter)] *)
Definition find (filter : gmap string FilterValue) (db : gmap string Ticket)
  : list (string * Ticket) :=
  List.filter (fun d : string * Ticket => matches filter d.2) (map_to_list db).

(** [.sort({ createdAt: -1 })] *)
Definition newer_first (a b : string * Ticket) : Prop :=
  (createdAt b.2 <= createdAt a.2)%Z.

#[global] Instance newer_first_dec (a b : string * Ticket) :
  Decision (newer_first a b).
Proof. unfold newer_first. apply _. Defined.

(** [.skip(skip).limit(limit)]: the store refuses a negative skip, takes a
    limit of 0 as no limit and a negative limit by its absolute value. *)
Definition skip_limit {A} (skip limit : Z) (l : list A) : option (list A) :=
  if (skip <? 0)%Z then None
  else
    let rest := drop (Z.to_nat skip) l in
    Some (if (limit =? 0)%Z then rest else take (Z.abs_nat limit) rest).

(** Query of GET /: the three optional string parameters, and [page] and
    [limit] as [parseInt] read them when present. *)
Record ListQuery := {
  q_status : option string;
  q_priority : option string;
  q_level : option string;
  q_page : option Z;
  q_limit : option Z
}.

Definition role_filter (u : AuthUser) : gmap string FilterValue :=
  if String.eqb (role u) "L1" then
    <["createdBy" := Cond (Equals (user_id u))]> ∅
  else if String.eqb (role u) "L2" then
    <["currentLevel" := Cond (AnyOf ["L2"; "L3"])]> ∅
  else if String.eqb (role u) "L3" then
    <["$and" := AndOf [("currentLevel", Equals "L3");
                       ("criticalValue", AnyOf ["C1"; "C2"])]]> ∅
  else ∅.

(** [if (v) filter[key] = v] *)
Definition assign_if (key : string) (v : option string)
    (filter : gmap string FilterValue) : gmap string FilterValue :=
  if truthy v then <[key := Cond (Equals (show_opt v))]> filter else filter.

Definition build_filter (u : AuthUser) (q : ListQuery)
  : gmap string FilterValue :=
  let filter := role_filter u in
  let filter := assign_if "status" (q_status q) filter in
  let filter := assign_if "priority" (q_priority q) filter in
  let filter := assign_if "currentLevel" (q_level q) filter in
  filter.

Definition getTickets (ctx : Context) (q : ListQuery)
    (db : gmap string Ticket) : Response * gmap string Ticket :=
  match user ctx with
  | None =>
      (failure 401 "Authentication required" ["User not authenticated"], db)
  | Some u =>
      let pageNum := default 1%Z (q_page q) in
      let limitNum := default 10%Z (q_limit q) in
      let filter := build_filter u q in
      match skip_limit ((pageNum - 1) * limitNum) limitNum
              (merge_sort newer_first (find filter db)) with
      | None =>
          (failure 500 "Failed to retrieve tickets" ["Internal server error"],
           db)
      | Some tickets =>
          let total := length (find filter db) in
          (ok 200 "Tickets retrieved successfully" (TicketsData tickets total),
           db)
      end
  end.

Definition getTicketById (ctx : Context) (id : string)
    (db : gmap string Ticket) : Response * gmap string Ticket :=
  match user ctx with
  | None =>
      (failure 401 "Authentication required" ["User not authenticated"], db)
  | Some u =>
      match db !! id with
      | None => (failure 404 "Ticket not found" ["Ticket does not exist"], db)
      | Some ticket =>
          let canView :=
            (String.eqb (role u) "L1"
               && String.eqb (createdBy ticket) (user_id u))
            || (String.eqb (role u) "L2"
                  && bool_decide (currentLevel ticket ∈ [L2; L3]))
            || (String.eqb (role u) "L3"
                  && bool_decide (currentLevel ticket = L3)
                  && includes_critical [C1; C2] (criticalValue ticket)) in
          if negb canView then
            (failure 403 "Access denied"
               ["You do not have permission to view this ticket"], db)
          else
            (ok 200 "Ticket retrieved successfully" (TicketData ticket), db)
      end
  end.

(** Body of PATCH /:id/status after [validateTicketUpdate]. *)
Record UpdateBody := {
  ub_status : option Status;
  ub_criticalValue : option CriticalValue
}.

Definition updateTicketStatus (ctx : Context) (id : string)
    (body : UpdateBody) (db : gmap string Ticket)
  : Response * gmap string Ticket :=
  match user ctx with
  | None =>
      (failure 401 "Authentication required" ["User not authenticated"], db)
  | Some u =>
      let status_ := ub_status body in
      let criticalValue_ := ub_criticalValue body in
      match db !! id with
      | None => (failure 404 "Ticket not found" ["Ticket does not exist"], db)
      | Some ticket =>
          if String.eqb (role u) "L1"
             && negb (bool_decide (currentLevel ticket = L1)) then
            (failure 403 "L1 agents can only update tickets at L1 level"
               ["Insufficient permissions"], db)
          else if String.eqb (role u) "L2"
                  && negb (bool_decide (currentLevel ticket ∈ [L1; L2])) then
            (failure 403 "L2 agents can only update tickets at L1 or L2 level"
               ["Insufficient permissions"], db)
          else if String.eqb (role u) "L3"
                  && bool_decide (currentLevel ticket = L3)
                  && negb (includes_critical [C1; C2] (criticalValue ticket))
          then
            (failure 403
               "L3 agents can only update critical (C1, C2) tickets at L3 level"
               ["Insufficient permissions"], db)
          else
            let previousStatus := status ticket in
            let ticket :=
              match status_ with
              | Some s => set_status s ticket
              | None => ticket
              end in
            let ticket :=
              match criticalValue_ with
              | Some c =>
                  if String.eqb (role u) "L2" then set_criticalValue c ticket
                  else ticket
              | None => ticket
              end in
            let ticket :=
              push_actionLog
                {| action := "Status updated from "
                               ++ status_name previousStatus ++ " to "
                               ++ status_name (default previousStatus status_);
                   performedBy := user_id u;
                   performedAt := now ctx;
                   details :=
                     match criticalValue_ with
                     | Some c =>
                         Some ("Critical value set to " ++ critical_name c)
                     | None => None
                     end;
                   previousStatus := Some previousStatus;
                   newStatus := Some (default previousStatus status_) |}
                ticket in
            match save (now ctx) id ticket db with
            | inl _ =>
                (failure 500 "Failed to update ticket"
                   ["Internal server error"], db)
            | inr (ticket, db') =>
                (ok 200 "Ticket updated successfully" (TicketData ticket), db')
            end
      end
  end.

Definition updateCriticalValue (ctx : Context) (id : string)
    (criticalValue_ : option string) (db : gmap string Ticket)
  : Response * gmap string Ticket :=
  match user ctx with
  | None =>
      (failure 401 "Authentication required" ["User not authenticated"], db)
  | Some u =>
      if negb (String.eqb (role u) "L2") then
        (failure 403 "Only L2 agents can update critical value"
           ["Insufficient permissions"], db)
      else
        match criticalValue_ ≫= critical_of_string with
        | None =>
            (failure 400 "Invalid critical value"
               ["Critical value must be C1, C2, or C3"], db)
        | Some c =>
            match db !! id with
            | None =>
                (failure 404 "Ticket not found" ["Ticket does not exist"], db)
            | Some ticket =>
                if negb (bool_decide (currentLevel ticket = L2)) then
                  (failure 403
                     "Can only update critical value for tickets at L2 level"
                     ["Ticket not at L2 level"], db)
                else
                  let previousCriticalValue := criticalValue ticket in
                  let ticket := set_criticalValue c ticket in
                  let ticket :=
                    push_actionLog
                      {| action := "Critical value updated";
                         performedBy := user_id u;
                         performedAt := now ctx;
                         details :=
                           Some ("Critical value changed from "
                                   ++ match previousCriticalValue with
                                      | Some p => critical_name p
                                      | None => "none"
                                      end
                                   ++ " to " ++ critical_name c);
                         previousStatus := None;
                         newStatus := None |} ticket in
                  match save (now ctx) id ticket db with
                  | inl _ =>
                      (failure 500 "Failed to update critical value"
                         ["Internal server error"], db)
                  | inr (ticket, db') =>
                      (ok 200 "Critical value updated successfully"
                         (TicketData ticket), db')
                  end
            end
        end
  end.

(** ** middleware/auth.ts and routes/tickets.ts *)

(** [authorizeRoles(...roles)] in front of the handler [next]. *)
Definition authorizeRoles (roles : list string) (ctx : Context)
    (next : gmap string Ticket -> Response * gmap string Ticket)
    (db : gmap string Ticket) : Response * gmap string Ticket :=
  match user ctx with
  | None =>
      (failure 401 "Authentication required" ["User not authenticated"], db)
  | Some u =>
      if negb (bool_decide (role u ∈ roles)) then
        (failure 403 "Insufficient permissions"
           ["Role " ++ role u ++ " not authorized for this action"], db)
      else next db
  end.

(** The requests of the ticket router, by route. *)
Inductive Request :=
| PostTicket (body : CreateBody)
| GetTickets (q : ListQuery)
| GetTicket (id : string)
| PatchStatus (id : string) (body : UpdateBody)
| PatchCriticalValue (id : string) (criticalValue_ : option string)
| PostEscalate (id : string) (body : EscalateBody)
| PostActionLog (id : string) (body : ActionLogBody)
| PostResolve (id : string) (resolution : option string).

(** The controller a request reaches. *)
Definition controller (ctx : Context) (r : Request)
  : gmap string Ticket -> Response * gmap string Ticket :=
  match r with
  | PostTicket body => createTicket ctx body
  | GetTickets q => getTickets ctx q
  | GetTicket id => getTicketById ctx id
  | PatchStatus id body => updateTicketStatus ctx id body
  | PatchCriticalValue id c => updateCriticalValue ctx id c
  | PostEscalate id body => escalateTicket ctx id body
  | PostActionLog id body => addActionLog ctx id body
  | PostResolve id resolution => resolveTicket ctx id resolution
  end.

(** The role middleware each route puts in front of its controller. *)
Definition route_roles (r : Request) : option (list string) :=
  match r with
  | PostTicket _ => Some ["L1"]
  | GetTickets _ => None
  | GetTicket _ => None
  | PatchStatus _ _ => None
  | PatchCriticalValue _ _ => Some ["L2"]
  | PostEscalate _ _ => Some ["L1"; "L2"]
  | PostActionLog _ _ => Some ["L1"; "L2"; "L3"]
  | PostResolve _ _ => Some ["L1"; "L2"; "L3"]
  end.

Definition router (ctx : Context) (r : Request) (db : gmap string Ticket)
  : Response * gmap string Ticket :=
  match route_roles r with
  | Some roles => authorizeRoles roles ctx (controller ctx r) db
  | None => controller ctx r db
  end.

(** ** Vocabulary of the properties *)

(** The structural invariant of a ticket: no C3 ticket sits at L3. *)
Definition ticket_inv (t : Ticket) : Prop :=
  currentLevel t = L3 -> criticalValue t <> Some C3.

Definition db_inv (db : gmap string Ticket) : Prop :=
  map_Forall (fun _ t => ticket_inv t) db.

(** The document a mutating request is about: the new one for a creation. *)
Definition subject (r : Request) (db : gmap string Ticket) : option string :=
  match r with
  | PostTicket _ => Some (new_id db)
  | GetTickets _ | GetTicket _ => None
  | PatchStatus id _ | PatchCriticalValue id _ | PostEscalate id _
  | PostActionLog id _ | PostResolve id _ => Some id
  end.

Definition is_escalate (r : Request) : bool :=
  match r with PostEscalate _ _ => true | _ => false end.

(** The two audit trails of a document; a document that is not stored has
    none yet. *)
Definition logs_of (db : gmap string Ticket) (id : string) : list ActionLog :=
  from_option actionLogs [] (db !! id).

Definition history_of (db : gmap string Ticket) (id : string)
  : list Escalation :=
  from_option escalationHistory [] (db !! id).

(** [hay.includes(needle)] *)
Fixpoint occurs (needle hay : string) : bool :=
  String.prefix needle hay
  || match hay with
     | EmptyString => false
     | String _ rest => occurs needle rest
     end.

(** The collections the router can build from an empty one. *)
Inductive reachable : gmap string Ticket -> Prop :=
| reachable_empty : reachable ∅
| reachable_step ctx r db :
    reachable db -> reachable (router ctx r db).2.

(** ** Sample data, after utils/seedData.ts and the test helpers *)

Definition agent_l1 : AuthUser :=
  {| user_id := "u1"; role := "L1"; username := "agent_l1" |}.
Definition support_l2 : AuthUser :=
  {| user_id := "u2"; role := "L2"; username := "support_l2" |}.
Definition advanced_l3 : AuthUser :=
  {| user_id := "u3"; role := "L3"; username := "advanced_l3" |}.
(** The test helpers' [TestUser] also admits the role ['Admin']. *)
Definition admin_user : AuthUser :=
  {| user_id := "u4"; role := "Admin"; username := "admin" |}.

Definition as_user (u : AuthUser) (z : Z) : Context :=
  {| user := Some u; now := z |}.

(** [createTestTicket(createdBy, ticketData)] *)
Definition sample_ticket (lvl : Level) (st : Status)
    (cv : option CriticalValue) (z : Z) : Ticket :=
  {| title := "Test Ticket";
     description := "Test ticket description";
     category := "Software";
     priority := Medium;
     status := st;
     criticalValue := cv;
     expectedCompletionDate := 1000;
     createdBy := "u1";
     assignedTo := None;
     currentLevel := lvl;
     escalationHistory := [];
     actionLogs :=
       [ {| action := "Ticket created"; performedBy := "u1";
            performedAt := z; details := None;
            previousStatus := None; newStatus := None |} ];
     createdAt := z;
     updatedAt := z |}.

(** One ticket per level, as the resolve tests set them up. *)
Definition sample_db : gmap string Ticket :=
  <["t1" := sample_ticket L1 New None 1]>
    (<["t2" := sample_ticket L2 Attending (Some C1) 2]>
       (<["t3" := sample_ticket L3 Attending (Some C1) 3]> ∅)).

(** What [canResolve] of [resolveTicket] comes to for an agent role. *)
Definition resolvable (u : AuthUser) (t : Ticket) : Prop :=
  role u = level_name (currentLevel t)
  /\ (currentLevel t = L3 ->
      criticalValue t = Some C1 \/ criticalValue t = Some C2).


(** One entry more on the action log of document [id], one more on its
    escalation history when the request is an escalation and none
    otherwise, every older entry where it was, and no other document
    touched. *)
Definition appended (r : Request) (id : string)
    (db db' : gmap string Ticket) : Prop :=
  (exists a, logs_of db' id = (logs_of db id ++ [a])%list)
  /\ length (logs_of db' id) = S (length (logs_of db id))
  /\ (if is_escalate r
      then exists e, history_of db' id = (history_of db id ++ [e])%list
      else history_of db' id = history_of db id)
  /\ (forall j, j <> id -> db' !! j = db !! j).

(** ** Vocabulary of the further properties *)

Definition level_rank (l : Level) : nat :=
  match l with L1 => 1 | L2 => 2 | L3 => 3 end.

(** The escalations that lead to a level, as (from, to) pairs. *)
Definition level_path (l : Level) : list (Level * Level) :=
  match l with
  | L1 => []
  | L2 => [(L1, L2)]
  | L3 => [(L1, L2); (L2, L3)]
  end.

Definition is_read (r : Request) : bool :=
  match r with GetTickets _ | GetTicket _ => true | _ => false end.

(** The fields no controller assigns after creation. *)
Definition same_descriptive (t t' : Ticket) : Prop :=
  title t' = title t /\ description t' = description t
  /\ category t' = category t /\ priority t' = priority t
  /\ expectedCompletionDate t' = expectedCompletionDate t
  /\ createdBy t' = createdBy t /\ assignedTo t' = assignedTo t
  /\ createdAt t' = createdAt t.

(** How the document [t'] that request [r] of actor [u] stores differs from
    the document [t] it loaded. *)
Definition edited (ctx : Context) (u : AuthUser) (r : Request)
    (t t' : Ticket) : Prop :=
  same_descriptive t t'
  /\ updatedAt t' = now ctx
  /\ (exists a, actionLogs t' = (actionLogs t ++ [a])%list
                /\ performedBy a = user_id u /\ performedAt a = now ctx)
  /\ (if is_escalate r
      then role u = level_name (currentLevel t)
           /\ status t' = Escalated
           /\ criticalValue t' = criticalValue t
           /\ (exists e,
                 escalationHistory t' = (escalationHistory t ++ [e])%list
                 /\ fromLevel e = currentLevel t
                 /\ toLevel e = currentLevel t'
                 /\ escalatedBy e = user_id u /\ escalatedAt e = now ctx)
           /\ ((currentLevel t = L1 /\ currentLevel t' = L2)
               \/ (currentLevel t = L2 /\ currentLevel t' = L3
                   /\ (criticalValue t = Some C1
                       \/ criticalValue t = Some C2)))
      else currentLevel t' = currentLevel t
           /\ escalationHistory t' = escalationHistory t
           /\ (criticalValue t' = criticalValue t
               \/ (role u = "L2" /\ currentLevel t <> L3)))
  .

(** A ticket at L3 carries C1 or C2. *)
Definition l3_critical (t : Ticket) : Prop :=
  currentLevel t = L3 ->
  criticalValue t = Some C1 \/ criticalValue t = Some C2.

(** The audit trail agrees with the ticket: the escalation history is the
    path to the current level, and the action log starts with the creation
    by the creator. *)
Definition trail_ok (t : Ticket) : Prop :=
  map (fun e => (fromLevel e, toLevel e)) (escalationHistory t)
  = level_path (currentLevel t)
  /\ exists a rest,
       actionLogs t = a :: rest
       /\ action a = "Ticket created" /\ performedBy a = createdBy t.

(** A sequence of requests through the router, each on the collection the
    one before left. *)
Definition run (reqs : list (Context * Request)) (db : gmap string Ticket)
  : gmap string Ticket :=
  fold_left (fun db cr => (router cr.1 cr.2 db).2) reqs db.

(** A ticket's way up, as the escalation tests walk it: created by the L1
    agent, escalated to L2, given C1 by the L2 agent and escalated to L3. *)
Definition lifecycle : list (Context * Request) :=
  [ (as_user agent_l1 1,
     PostTicket {| cb_title := "Test Ticket";
                   cb_description := "This is a test ticket";
                   cb_category := "Software"; cb_priority := High;
                   cb_expectedCompletionDate := 1000 |});
    (as_user agent_l1 2,
     PostEscalate (new_id ∅)
       {| eb_toLevel := L2; eb_reason := "Need L2 review";
          eb_notes := None |});
    (as_user support_l2 3, PatchCriticalValue (new_id ∅) (Some "C1"));
    (as_user support_l2 4,
     PostEscalate (new_id ∅)
       {| eb_toLevel := L3;
          eb_reason := "Critical issue requiring L3 intervention";
          eb_notes := Some "C1 critical issue needs immediate L3 attention" |})
  ].

(** * Properties *)

(** ** Writes *)

Arguments save : simpl never.
Arguments pre_save : simpl never.

Section Writes.
Implicit Types (t : Ticket) (db : gmap string Ticket) (id : string).

Lemma pre_save_None t : pre_save t = None <-> ticket_inv t.
Proof.
  unfold pre_save, ticket_inv.
  destruct (bool_decide_reflect (currentLevel t = L3)) as [Hl | Hl];
    destruct (bool_decide_reflect (criticalValue t = Some C3)) as [Hc | Hc];
    simpl; split; try done; intros H; try congruence.
  by destruct (H Hl).
Qed.

Lemma save_inr z id t db t' db' :
  save z id t db = inr (t', db') ->
  pre_save t = None /\ t' = set_updatedAt z t /\ db' = <[id := t']> db.
Proof.
  unfold save. destruct (pre_save t); [done |].
  intros [= <- <-]. done.
Qed.

Lemma save_ok z id t db :
  ticket_inv t ->
  save z id t db = inr (set_updatedAt z t, <[id := set_updatedAt z t]> db).
Proof.
  intros H. apply pre_save_None in H. unfold save. by rewrite H.
Qed.

Lemma db_inv_insert id t db :
  ticket_inv t -> db_inv db -> db_inv (<[id := t]> db).
Proof. intros Ht Hdb. by apply map_Forall_insert_2. Qed.

(** Whatever a controller does to the collection, it does by one
    successful [save] of the document the request is about. *)
Lemma controller_writes ctx r db :
  (controller ctx r db).2 = db
  \/ exists id t,
       subject r db = Some id /\ pre_save t = None
       /\ (controller ctx r db).2 = <[id := set_updatedAt (now ctx) t]> db.
Proof.
  destruct r; simpl;
    [ unfold createTicket | unfold getTickets | unfold getTicketById
    | unfold updateTicketStatus | unfold updateCriticalValue
    | unfold escalateTicket | unfold addActionLog | unfold resolveTicket ];
    repeat (case_match; simpl; try (by left));
    try match goal with
    | H : save _ _ _ _ = inr _ |- _ =>
        apply save_inr in H; destruct H as (Hp & -> & ->)
    end;
    (right; eexists _, _; split; [done |]; split; [| done]; done).
Qed.
End Writes.

(** ** The structural invariant *)

Section Invariant.
Implicit Types (db : gmap string Ticket) (r : Request) (ctx : Context).

(** The role middleware either answers itself, leaving the collection
    alone, or hands over to the controller. *)
Lemma router_controller ctx r db :
  router ctx r db = controller ctx r db
  \/ (httpStatus (router ctx r db).1 ∈ [401%Z; 403%Z]
      /\ (router ctx r db).2 = db).
Proof.
  unfold router. destruct (route_roles r) as [roles |]; [| by left].
  unfold authorizeRoles. destruct (user ctx) as [u |].
  - destruct (negb (bool_decide (role u ∈ roles))); [right | by left].
    simpl. split; [set_solver | done].
  - right. simpl. split; [set_solver | done].
Qed.

Lemma controller_inv ctx r db :
  db_inv db -> db_inv (controller ctx r db).2.
Proof.
  intros Hdb.
  destruct (controller_writes ctx r db) as [-> | (id & t & _ & Hp & ->)];
    [done |].
  apply db_inv_insert; [| done].
  apply pre_save_None in Hp. exact Hp.
Qed.

Lemma router_inv ctx r db : db_inv db -> db_inv (router ctx r db).2.
Proof.
  intros Hdb.
  destruct (router_controller ctx r db) as [-> | [_ ->]]; [| done].
  by apply controller_inv.
Qed.

Lemma reachable_inv db : reachable db -> db_inv db.
Proof.
  induction 1 as [| ctx r db _ IH].
  - apply map_Forall_empty.
  - by apply router_inv.
Qed.

Lemma reachable_ticket_inv db (id : string) (t : Ticket) :
  reachable db -> db !! id = Some t -> ticket_inv t.
Proof. intros Hr Ht. exact (reachable_inv db Hr id t Ht). Qed.
End Invariant.

(** C1: after every operation (create, update status, assign criticality,
    escalate, resolve, add action log, and the two reads), whether it
    reaches its controller directly or through the router, every stored
    ticket whose currentLevel is L3 has a criticalValue other than C3,
    given that this held of the collection before the operation. *)
Theorem l3_ticket_never_c3 (ctx : Context) (r : Request)
    (db : gmap string Ticket) :
  db_inv db ->
  (forall id t, (controller ctx r db).2 !! id = Some t ->
     currentLevel t = L3 -> criticalValue t <> Some C3)
  /\ (forall id t, (router ctx r db).2 !! id = Some t ->
        currentLevel t = L3 -> criticalValue t <> Some C3).
Proof.
  intros Hdb. split; intros id t Hl.
  - exact (controller_inv ctx r db Hdb id t Hl).
  - exact (router_inv ctx r db Hdb id t Hl).
Qed.

Lemma sample_db_inv : db_inv sample_db.
Proof.
  unfold sample_db.
  repeat (apply db_inv_insert; [unfold ticket_inv; simpl; congruence |]).
  apply map_Forall_empty.
Defined.

Lemma l3_ticket_never_c3_witness :
  db_inv sample_db
  /\ forall id t,
       (router (as_user support_l2 9)
          (PostEscalate "t2"
             {| eb_toLevel := L3; eb_reason := "Critical issue";
                eb_notes := None |}) sample_db).2 !! id = Some t ->
       currentLevel t = L3 -> criticalValue t <> Some C3.
Proof.
  split; [exact sample_db_inv |].
  exact (proj2 (l3_ticket_never_c3 _ _ _ sample_db_inv)).
Defined.

(** ** Resolve *)

Lemma agent_role_cases (r : string) :
  r ∈ ["L1"; "L2"; "L3"] -> r = "L1" \/ r = "L2" \/ r = "L3".
Proof. rewrite !elem_of_cons, elem_of_nil. tauto. Qed.

Section Resolve.
Variables (ctx : Context) (u : AuthUser) (id : string)
          (resolution : option string) (db : gmap string Ticket)
          (t : Ticket).
Hypothesis Huser : user ctx = Some u.
Hypothesis Hticket : db !! id = Some t.
Hypothesis Hrole : role u ∈ ["L1"; "L2"; "L3"].

Lemma resolve_denied :
  ~ resolvable u t ->
  resolveTicket ctx id resolution db
  = (failure 403
       (role u ++ " agents can only resolve tickets at " ++ role u
          ++ " level")
       ["Insufficient permissions for this ticket level"], db).
Proof.
  intros Hno. unfold resolveTicket. rewrite Huser, Hticket.
  rewrite bool_decide_true by done. simpl.
  unfold resolvable in Hno.
  destruct (agent_role_cases _ Hrole) as [Hr | [Hr | Hr]]; rewrite Hr in *;
    destruct (currentLevel t) eqn:Hl;
    destruct (criticalValue t) as [[] |] eqn:Hc; simpl; try done;
    exfalso; apply Hno; split; try done; auto.
Qed.

End Resolve.



(** ** What an L3 agent may update and log *)

Section L3Agent.
Variables (ctx : Context) (u : AuthUser) (id : string)
          (db : gmap string Ticket) (t : Ticket).
Hypothesis Huser : user ctx = Some u.
Hypothesis Hrole : role u = "L3".
Hypothesis Hticket : db !! id = Some t.


End L3Agent.




(** ** Escalate *)

(** C4: the L1 agent of the sample data escalates the ticket stored at L1
    with status New to L2.  The request succeeds and appends one action log
    entry; its newStatus is Escalated, and its previousStatus is Escalated
    as well, not the status New the ticket had before the request:
    [escalateTicket] reads [ticket.status] for previousStatus after it has
    assigned ['Escalated'] to it. *)
Theorem escalate_log_previousStatus_overwritten :
  let body := {| eb_toLevel := L2; eb_reason := "Complex issue";
                 eb_notes := None |} in
  let out := escalateTicket (as_user agent_l1 9) "t1" body sample_db in
  (status <$> sample_db !! "t1") = Some New
  /\ httpStatus out.1 = 200%Z
  /\ (currentLevel <$> out.2 !! "t1") = Some L2
  /\ (length <$> (actionLogs <$> out.2 !! "t1")) = Some 2
  /\ (out.2 !! "t1" ≫= fun t => last (actionLogs t))
     = Some {| action := "Ticket escalated from L1 to L2";
               performedBy := "u1";
               performedAt := 9;
               details := Some "Reason: Complex issue";
               previousStatus := Some Escalated;
               newStatus := Some Escalated |}.
Proof. vm_compute. repeat split. Qed.

(** The same for every escalation that succeeds: the entry it appends
    carries Escalated in both status fields. *)
Lemma escalate_log_entry (ctx : Context) (id : string) (body : EscalateBody)
    (db : gmap string Ticket) :
  success (escalateTicket ctx id body db).1 = true ->
  exists a,
    logs_of (escalateTicket ctx id body db).2 id
    = (logs_of db id ++ [a])%list
    /\ previousStatus a = Some Escalated /\ newStatus a = Some Escalated.
Proof.
  unfold escalateTicket.
  repeat (case_match; simpl; try done);
    match goal with
    | H : save _ _ _ _ = inr _ |- _ =>
        apply save_inr in H; destruct H as (_ & -> & ->)
    end;
    intros _; unfold logs_of; rewrite lookup_insert_eq;
    match goal with H : db !! id = Some _ |- _ => rewrite H end;
    simpl; eauto.
Qed.

(** ** The audit trail *)

Lemma new_id_fresh (db : gmap string Ticket) : db !! new_id db = None.
Proof. apply not_elem_of_dom. unfold new_id. apply is_fresh. Qed.

(** A handler on a stored document: split its branches; the one that
    succeeds has saved the document with one more log entry. *)
Ltac one_more_entry :=
  repeat (case_match; simpl; try done);
  match goal with
  | H : save _ _ _ _ = inr _ |- _ =>
      apply save_inr in H; destruct H as (_ & -> & ->)
  end;
  intros _; rewrite lookup_insert_eq; simpl;
  (split_and!;
   [ eauto | by rewrite length_app, Nat.add_1_r | eauto
   | intros j Hj; by rewrite lookup_insert_ne ]).

Lemma controller_appends (ctx : Context) (r : Request)
    (db : gmap string Ticket) (id : string) :
  subject r db = Some id ->
  success (controller ctx r db).1 = true ->
  appended r id db (controller ctx r db).2.
Proof.
  unfold appended, logs_of, history_of.
  destruct r; simpl; try done; intros [= <-].
  - (* create *)
    unfold createTicket.
    destruct (user ctx) as [u |]; [| done].
    destruct (negb (role u =? "L1")); [done |].
    rewrite save_ok by (unfold ticket_inv; simpl; congruence).
    simpl. intros _. rewrite lookup_insert_eq, new_id_fresh. simpl.
    split_and!; eauto. intros j Hj. by rewrite lookup_insert_ne.
  - unfold updateTicketStatus. one_more_entry.
  - unfold updateCriticalValue. one_more_entry.
  - unfold escalateTicket. one_more_entry.
  - unfold addActionLog. one_more_entry.
  - unfold resolveTicket. one_more_entry.
Qed.

Lemma router_success (ctx : Context) (r : Request) (db : gmap string Ticket) :
  success (router ctx r db).1 = true ->
  router ctx r db = controller ctx r db.
Proof.
  unfold router, authorizeRoles.
  repeat (case_match; simpl; try done).
Qed.

(** C5: a mutating request (create, update status, assign criticality,
    escalate, resolve, add action log) that succeeds, at its controller or
    through the router, leaves the action log of its ticket one entry
    longer, the new entry last and every older entry in place; the
    escalation history gets exactly one record more for an escalation and
    stays as it was otherwise; no other ticket changes.  A created ticket
    has no stored entries before. *)
Theorem audit_trail_grows_by_one (ctx : Context) (r : Request)
    (db : gmap string Ticket) (id : string) :
  subject r db = Some id ->
  (success (controller ctx r db).1 = true ->
   appended r id db (controller ctx r db).2)
  /\ (success (router ctx r db).1 = true ->
      appended r id db (router ctx r db).2).
Proof.
  intros Hs. split.
  - by apply controller_appends.
  - intros Hok. pose proof (router_success _ _ _ Hok) as He.
    rewrite He in Hok |- *. by apply controller_appends.
Qed.

Lemma audit_trail_grows_by_one_witness :
  let r := PostEscalate "t1" {| eb_toLevel := L2;
                                eb_reason := "Complex issue";
                                eb_notes := None |} in
  appended r "t1" sample_db (router (as_user agent_l1 9) r sample_db).2.
Proof.
  intros r.
  apply (audit_trail_grows_by_one (as_user agent_l1 9) r sample_db "t1").
  - reflexivity.
  - vm_compute. reflexivity.
Defined.

(** ** Listing *)

Lemma matches_lookup (filter : gmap string FilterValue) (t : Ticket)
    (k : string) (c : Clause) :
  matches filter t = true -> filter !! k = Some (Cond c) ->
  holds t k c = true.
Proof.
  unfold matches. rewrite forallb_forall. intros Hall Hk.
  apply (Hall (k, Cond c)).
  apply list_elem_of_In, elem_of_map_to_list. exact Hk.
Qed.

Lemma find_matches (filter : gmap string FilterValue)
    (db : gmap string Ticket) (d : string * Ticket) :
  d ∈ find filter db -> db !! d.1 = Some d.2 /\ matches filter d.2 = true.
Proof.
  unfold find. rewrite list_elem_of_In, filter_In, <- list_elem_of_In.
  intros [Hd Hm]. split; [| done].
  destruct d as [k t]. by apply elem_of_map_to_list.
Qed.

Lemma skip_limit_elem {A} (skip limit : Z) (l l' : list A) (x : A) :
  skip_limit skip limit l = Some l' -> x ∈ l' -> x ∈ l.
Proof.
  unfold skip_limit. destruct (skip <? 0)%Z; [done |].
  intros [= <-]. destruct (limit =? 0)%Z; intros Hx.
  - by eapply subseteq_drop.
  - eapply subseteq_drop, subseteq_take. exact Hx.
Qed.

(** What the role's condition gives when no [level] parameter replaces it:
    an L2 agent is listed tickets at L2 and L3 only. *)
Lemma l2_listing_without_level (ctx : Context) (u : AuthUser)
    (q : ListQuery) (db : gmap string Ticket)
    (tickets : list (string * Ticket)) (total : nat) :
  user ctx = Some u -> role u = "L2" -> truthy (q_level q) = false ->
  data (getTickets ctx q db).1 = TicketsData tickets total ->
  forall d, d ∈ tickets -> db !! d.1 = Some d.2 /\ currentLevel d.2 ∈ [L2; L3].
Proof.
  intros Hu Hr Hl. unfold getTickets. rewrite Hu.
  destruct (skip_limit _ _ _) as [l |] eqn:Hsl; [| done].
  simpl. intros [= <- <-] d Hd.
  eapply skip_limit_elem in Hd; [| exact Hsl].
  rewrite merge_sort_Permutation in Hd.
  apply find_matches in Hd as [Hdb Hm]. split; [done |].
  assert (build_filter u q !! "currentLevel"
          = Some (Cond (AnyOf ["L2"; "L3"]))) as Hk.
  { unfold build_filter, assign_if, role_filter. rewrite Hr, Hl. simpl.
    destruct (truthy (q_priority q)), (truthy (q_status q));
      rewrite ?lookup_insert_ne by done; apply lookup_insert_eq. }
  pose proof (matches_lookup _ _ _ _ Hm Hk) as Hh.
  unfold holds, field in Hh. simpl in Hh.
  destruct (currentLevel d.2); simpl in Hh; [done | |];
    rewrite !elem_of_cons; auto.
Qed.

(** C6: the L2 agent of the sample data lists with the query parameter
    [level=L1].  The assignment [filter.currentLevel = level] replaces the
    role's condition on the same key, and the one ticket listed is the one
    stored at level L1. *)
Theorem l2_listing_level_overrides_role_filter :
  let q := {| q_status := None; q_priority := None; q_level := Some "L1";
              q_page := None; q_limit := None |} in
  role support_l2 = "L2"
  /\ build_filter support_l2 q = <["currentLevel" := Cond (Equals "L1")]> ∅
  /\ getTickets (as_user support_l2 9) q sample_db
     = (ok 200 "Tickets retrieved successfully"
          (TicketsData [("t1", sample_ticket L1 New None 1)] 1),
        sample_db).
Proof.
  split; [reflexivity |].
  split; vm_compute; reflexivity.
Qed.

(** ** The denial of a mismatched Resolve *)

(** C7, as the specification words it, fails: the L1 agent of the sample
    data resolving the ticket stored at L2 is answered 403 with a message
    in which L1 occurs and L2 does not. *)
Lemma resolve_denial_omits_ticket_level :
  let out := resolveTicket (as_user agent_l1 9) "t2" (Some "done")
               sample_db in
  role agent_l1 = "L1"
  /\ (currentLevel <$> sample_db !! "t2") = Some L2
  /\ httpStatus out.1 = 403%Z
  /\ message out.1 = "L1 agents can only resolve tickets at L1 level"
  /\ occurs "L1" (message out.1) = true
  /\ occurs "L2" (message out.1) = false
  /\ ~ (occurs "L1" (message out.1) = true
        /\ occurs "L2" (message out.1) = true).
Proof.
  vm_compute. split_and!; try reflexivity.
  intros [_ H]. discriminate H.
Qed.

(** C7, amended: for a mismatched Resolve attempt (role R, ticket level T,
    both among L1, L2, L3, R different from T) the answer is 403 Forbidden
    with the message "R agents can only resolve tickets at R level", which
    names the actor's role R and does not name the ticket's level T. *)
Theorem resolve_denial_names_role_only (ctx : Context) (u : AuthUser)
    (id : string) (resolution : option string) (db : gmap string Ticket)
    (t : Ticket) :
  user ctx = Some u ->
  db !! id = Some t ->
  role u ∈ ["L1"; "L2"; "L3"] ->
  role u <> level_name (currentLevel t) ->
  let out := resolveTicket ctx id resolution db in
  httpStatus out.1 = 403%Z
  /\ message out.1
     = (role u ++ " agents can only resolve tickets at " ++ role u
          ++ " level")%string
  /\ occurs (role u) (message out.1) = true
  /\ occurs (level_name (currentLevel t)) (message out.1) = false.
Proof.
  intros Hu Ht Hr Hne out. subst out.
  rewrite (resolve_denied ctx u id resolution db t Hu Ht Hr)
    by (by intros [? _]).
  simpl.
  destruct (agent_role_cases _ Hr) as [Hr' | [Hr' | Hr']];
    rewrite Hr' in *; destruct (currentLevel t); try done;
    vm_compute; repeat split.
Qed.

Lemma resolve_denial_names_role_only_witness :
  let out := resolveTicket (as_user support_l2 9) "t3" None sample_db in
  httpStatus out.1 = 403%Z
  /\ message out.1 = "L2 agents can only resolve tickets at L2 level"
  /\ occurs "L2" (message out.1) = true
  /\ occurs "L3" (message out.1) = false.
Proof.
  apply (resolve_denial_names_role_only (as_user support_l2 9) support_l2
           "t3" None sample_db (sample_ticket L3 Attending (Some C1) 3)).
  - reflexivity.
  - reflexivity.
  - apply (bool_decide_unpack _). vm_compute. exact I.
  - simpl. discriminate.
Defined.

(** ** Status updates by roles other than L2 *)









(** * Further properties of the controllers *)

(** ** What one request writes *)

(** The role of the actor against the three agent roles. *)
Ltac role_cases u :=
  destruct (String.eqb_spec (role u) "L1") as [?Hr | ?Hn1];
    [ rewrite ?Hr in *
    | destruct (String.eqb_spec (role u) "L2") as [?Hr | ?Hn2];
      [ rewrite ?Hr in *
      | destruct (String.eqb_spec (role u) "L3") as [?Hr | ?Hn3];
        [ rewrite ?Hr in * | ] ] ].

Lemma escalate_step (ctx : Context) (id : string) (body : EscalateBody)
    (db : gmap string Ticket) :
  success (escalateTicket ctx id body db).1 = true ->
  exists u t t',
    user ctx = Some u /\ db !! id = Some t
    /\ (escalateTicket ctx id body db).2 = <[id := t']> db
    /\ data (escalateTicket ctx id body db).1 = TicketData t'
    /\ currentLevel t' = eb_toLevel body
    /\ edited ctx u (PostEscalate id body) t t'.
Proof.
  unfold escalateTicket.
  destruct (user ctx) as [u |]; [| done].
  destruct (db !! id) as [t |]; [| done].
  rewrite (String.eqb_sym _ (role u)).
  destruct (currentLevel t) eqn:Hl; simpl;
    role_cases u; simpl; try done;
    destruct (eb_toLevel body) eqn:Hto; simpl; try done;
    destruct (criticalValue t) as [[] |] eqn:Hc; simpl; try done;
    unfold save, pre_save; simpl; rewrite ?Hl, ?Hc, ?Hto; simpl; intros _;
    (eexists u, t, _; split_and!; try reflexivity;
     unfold edited, same_descriptive; simpl; rewrite ?Hl, ?Hc, ?Hr;
     split_and!; eauto 10).
Qed.

Lemma update_step (ctx : Context) (id : string) (body : UpdateBody)
    (db : gmap string Ticket) :
  success (updateTicketStatus ctx id body db).1 = true ->
  exists u t t',
    user ctx = Some u /\ db !! id = Some t
    /\ (updateTicketStatus ctx id body db).2 = <[id := t']> db
    /\ data (updateTicketStatus ctx id body db).1 = TicketData t'
    /\ status t' = default (status t) (ub_status body)
    /\ criticalValue t'
       = (if String.eqb (role u) "L2"
          then from_option Some (criticalValue t) (ub_criticalValue body)
          else criticalValue t)
    /\ edited ctx u (PatchStatus id body) t t'.
Proof.
  unfold updateTicketStatus.
  destruct (user ctx) as [u |]; [| done].
  destruct (db !! id) as [t |]; [| done].
  destruct (currentLevel t) eqn:Hl; simpl;
    role_cases u; simpl; try done;
    destruct (criticalValue t) as [[] |] eqn:Hc; simpl; try done;
    destruct body as [[s |] [c |]]; simpl;
    unfold save, pre_save; simpl; rewrite ?Hl, ?Hc; simpl; try done;
    intros _;
    (eexists u, t, _; split_and!; try reflexivity;
     simpl; rewrite ?Hl, ?Hc, ?Hr;
     try match goal with
         | H : role u <> "L2" |- _ =>
             rewrite (proj2 (String.eqb_neq _ _) H)
         end;
     try reflexivity;
     unfold edited, same_descriptive; simpl; rewrite ?Hl, ?Hc, ?Hr;
     split_and!; eauto 10).
Qed.

Lemma critical_step (ctx : Context) (id : string)
    (value : option string) (db : gmap string Ticket) :
  success (updateCriticalValue ctx id value db).1 = true ->
  exists u t t' c,
    user ctx = Some u /\ db !! id = Some t
    /\ (updateCriticalValue ctx id value db).2 = <[id := t']> db
    /\ data (updateCriticalValue ctx id value db).1 = TicketData t'
    /\ value = Some (critical_name c)
    /\ criticalValue t' = Some c /\ status t' = status t
    /\ role u = "L2" /\ currentLevel t = L2
    /\ edited ctx u (PatchCriticalValue id value) t t'.
Proof.
  unfold updateCriticalValue.
  destruct (user ctx) as [u |]; [| done].
  destruct (String.eqb_spec (role u) "L2") as [Hr | Hn]; simpl; [| done].
  destruct value as [v |]; simpl; [| done].
  destruct (critical_of_string v) as [c |] eqn:Hv; [| done].
  assert (v = critical_name c) as ->.
  { unfold critical_of_string in Hv.
    destruct (String.eqb_spec v "C1") as [-> | _]; [by inversion Hv |].
    destruct (String.eqb_spec v "C2") as [-> | _]; [by inversion Hv |].
    destruct (String.eqb_spec v "C3") as [-> | _]; [by inversion Hv | done]. }
  destruct (db !! id) as [t |]; [| done].
  destruct (currentLevel t) eqn:Hl; simpl; try done.
  unfold save, pre_save; simpl; rewrite Hl; simpl. intros _.
  eexists u, t, _, c; split_and!; try reflexivity; try done.
  unfold edited, same_descriptive; simpl; rewrite ?Hl, ?Hr.
  split_and!; eauto 10.
Qed.

Lemma log_step (ctx : Context) (id : string) (body : ActionLogBody)
    (db : gmap string Ticket) :
  success (addActionLog ctx id body db).1 = true ->
  exists u t t' a,
    user ctx = Some u /\ db !! id = Some t
    /\ (addActionLog ctx id body db).2 = <[id := t']> db
    /\ data (addActionLog ctx id body db).1 = ActionLogData (Some a)
    /\ actionLogs t' = (actionLogs t ++ [a])%list
    /\ action a = ab_action body /\ details a = ab_details body
    /\ previousStatus a = None /\ newStatus a = None
    /\ status t' = status t /\ criticalValue t' = criticalValue t
    /\ edited ctx u (PostActionLog id body) t t'.
Proof.
  unfold addActionLog.
  destruct (user ctx) as [u |]; [| done].
  destruct (db !! id) as [t |]; [| done].
  destruct (currentLevel t) eqn:Hl; simpl;
    role_cases u; simpl; try done;
    destruct (criticalValue t) as [[] |] eqn:Hc; simpl; try done;
    unfold save, pre_save; simpl; rewrite ?Hl, ?Hc; simpl; try done;
    intros _;
    (eexists u, t, _, _; split_and!; try reflexivity;
     [ simpl; by rewrite last_snoc
     | unfold edited, same_descriptive; simpl; rewrite ?Hl, ?Hc, ?Hr;
       split_and!; eauto 10 ]).
Qed.

Lemma resolve_step (ctx : Context) (id : string)
    (resolution : option string) (db : gmap string Ticket) :
  success (resolveTicket ctx id resolution db).1 = true ->
  exists u t t',
    user ctx = Some u /\ db !! id = Some t
    /\ (resolveTicket ctx id resolution db).2 = <[id := t']> db
    /\ data (resolveTicket ctx id resolution db).1 = TicketData t'
    /\ status t' = Resolved /\ criticalValue t' = criticalValue t
    /\ edited ctx u (PostResolve id resolution) t t'.
Proof.
  unfold resolveTicket.
  destruct (user ctx) as [u |]; [| done].
  destruct (bool_decide (role u ∈ ["L1"; "L2"; "L3"])); simpl; [| done].
  destruct (db !! id) as [t |]; [| done].
  destruct (currentLevel t) eqn:Hl; simpl;
    role_cases u; simpl; try done;
    destruct (criticalValue t) as [[] |] eqn:Hc; simpl; try done;
    unfold save, pre_save; simpl; rewrite ?Hl, ?Hc; simpl; try done;
    intros _;
    (eexists u, t, _; split_and!; try reflexivity;
     unfold edited, same_descriptive; simpl; rewrite ?Hl, ?Hc, ?Hr;
     split_and!; eauto 10).
Qed.

Lemma create_step (ctx : Context) (body : CreateBody)
    (db : gmap string Ticket) :
  success (createTicket ctx body db).1 = true ->
  exists u,
    user ctx = Some u /\ role u = "L1"
    /\ createTicket ctx body db
       = (ok 201 "Ticket created successfully"
            (TicketData (new_ticket ctx u body)),
          <[new_id db := new_ticket ctx u body]> db).
Proof.
  unfold createTicket.
  destruct (user ctx) as [u |]; [| done].
  destruct (String.eqb_spec (role u) "L1") as [Hr | Hn]; simpl; [| done].
  intros _. exists u. done.
Qed.

Lemma failed_controller (ctx : Context) (r : Request)
    (db : gmap string Ticket) :
  success (controller ctx r db).1 = false -> (controller ctx r db).2 = db.
Proof.
  destruct r; simpl;
    [ unfold createTicket | unfold getTickets | unfold getTicketById
    | unfold updateTicketStatus | unfold updateCriticalValue
    | unfold escalateTicket | unfold addActionLog | unfold resolveTicket ];
    repeat (case_match; simpl; try done).
Qed.

(** One request at its controller: it fails and writes nothing, or it is a
    read, or it stores one document: a new one under a new id, or an edited
    one under the id it was loaded from. *)
Lemma controller_step (ctx : Context) (r : Request)
    (db : gmap string Ticket) :
  (success (controller ctx r db).1 = false /\ (controller ctx r db).2 = db)
  \/ (is_read r = true /\ (controller ctx r db).2 = db)
  \/ exists u id,
       success (controller ctx r db).1 = true
       /\ user ctx = Some u /\ subject r db = Some id
       /\ ((exists body,
              r = PostTicket body /\ role u = "L1" /\ db !! id = None
              /\ (controller ctx r db).2 = <[id := new_ticket ctx u body]> db)
           \/ (exists t t',
                 db !! id = Some t
                 /\ (controller ctx r db).2 = <[id := t']> db
                 /\ edited ctx u r t t')).
Proof.
  destruct (success (controller ctx r db).1) eqn:Hs;
    [| left; split; [done | by apply failed_controller]].
  right. destruct r; simpl in *.
  - right. destruct (create_step _ _ _ Hs) as (u & Hu & Hr & ->).
    exists u, (new_id db). split_and!; try done.
    left. exists body. split_and!; try done. apply new_id_fresh.
  - left. split; [done |]. unfold getTickets.
    repeat (case_match; simpl; try done).
  - left. split; [done |]. unfold getTicketById.
    repeat (case_match; simpl; try done).
  - right. destruct (update_step _ _ _ _ Hs) as (u & t & t' & ? & ? & ? & H).
    exists u, id. split_and!; try done. right. exists t, t'.
    split_and!; try done. apply H.
  - right.
    destruct (critical_step _ _ _ _ Hs) as (u & t & t' & c & ? & ? & ? & H).
    exists u, id. split_and!; try done. right. exists t, t'.
    split_and!; try done. apply H.
  - right. destruct (escalate_step _ _ _ _ Hs) as (u & t & t' & ? & ? & ? & H).
    exists u, id. split_and!; try done. right. exists t, t'.
    split_and!; try done. apply H.
  - right.
    destruct (log_step _ _ _ _ Hs) as (u & t & t' & a & ? & ? & ? & H).
    exists u, id. split_and!; try done. right. exists t, t'.
    split_and!; try done. apply H.
  - right. destruct (resolve_step _ _ _ _ Hs) as (u & t & t' & ? & ? & ? & H).
    exists u, id. split_and!; try done. right. exists t, t'.
    split_and!; try done. apply H.
Qed.

(** ** Failures and reads *)

(** X1: a request that is answered without success, and any read, leaves
    the collection exactly as it was, at the controller and through the
    router. *)
Theorem failed_request_writes_nothing (ctx : Context) (r : Request)
    (db : gmap string Ticket) :
  (success (controller ctx r db).1 = false \/ is_read r = true ->
   (controller ctx r db).2 = db)
  /\ (success (router ctx r db).1 = false \/ is_read r = true ->
      (router ctx r db).2 = db).
Proof.
  assert (success (controller ctx r db).1 = false \/ is_read r = true ->
          (controller ctx r db).2 = db) as Hc.
  { intros [Hf | Hread]; [by apply failed_controller |].
    destruct (controller_step ctx r db)
      as [[_ H] | [[_ H] | (u & id & _ & _ & Hs & _)]]; try done.
    destruct r; done. }
  split; [done |]. intros H.
  destruct (router_controller ctx r db) as [He | [_ Hdb]]; [| done].
  rewrite He in *. by apply Hc.
Qed.

Lemma failed_request_writes_nothing_witness :
  (router (as_user agent_l1 9) (PostResolve "t2" (Some "done")) sample_db).2
  = sample_db.
Proof.
  apply (failed_request_writes_nothing (as_user agent_l1 9)
           (PostResolve "t2" (Some "done")) sample_db).
  left. vm_compute. reflexivity.
Defined.

(** ** What no request does to a stored ticket *)

Lemma controller_keeps (ctx : Context) (r : Request)
    (db : gmap string Ticket) (id : string) (t : Ticket) :
  db !! id = Some t ->
  (controller ctx r db).2 !! id = Some t
  \/ exists u t',
       user ctx = Some u /\ success (controller ctx r db).1 = true
       /\ subject r db = Some id
       /\ (controller ctx r db).2 !! id = Some t'
       /\ edited ctx u r t t'.
Proof.
  intros Ht.
  destruct (controller_step ctx r db)
    as [[_ ->] | [[_ ->] | (u & id' & Hs & Hu & Hsub & Hw)]];
    [by left | by left |].
  destruct Hw as [(body & _ & _ & Hnone & ->) | (t0 & t' & Ht0 & -> & He)].
  - left. rewrite lookup_insert_ne; [done |]. congruence.
  - destruct (decide (id' = id)) as [-> | Hne].
    + right. exists u, t'. rewrite lookup_insert_eq.
      rewrite Ht in Ht0. injection Ht0 as <-. done.
    + left. by rewrite lookup_insert_ne.
Qed.

Lemma router_keeps (ctx : Context) (r : Request)
    (db : gmap string Ticket) (id : string) (t : Ticket) :
  db !! id = Some t ->
  (router ctx r db).2 !! id = Some t
  \/ exists u t',
       user ctx = Some u /\ success (router ctx r db).1 = true
       /\ subject r db = Some id
       /\ (router ctx r db).2 !! id = Some t'
       /\ edited ctx u r t t'.
Proof.
  intros Ht.
  destruct (router_controller ctx r db) as [-> | [_ ->]]; [| by left].
  by apply controller_keeps.
Qed.

(** X2: no request removes a stored ticket or changes its title,
    description, category, priority, expected completion date, creator,
    assignee or creation time. *)
Theorem stored_ticket_frame (ctx : Context) (r : Request)
    (db : gmap string Ticket) (id : string) (t : Ticket) :
  db !! id = Some t ->
  (exists t', (controller ctx r db).2 !! id = Some t'
              /\ same_descriptive t t')
  /\ (exists t', (router ctx r db).2 !! id = Some t'
                 /\ same_descriptive t t').
Proof.
  intros Ht. split.
  - destruct (controller_keeps ctx r db id t Ht)
      as [H | (u & t' & _ & _ & _ & H & He)].
    + exists t. split; [done |]. by repeat split.
    + exists t'. split; [done |]. apply He.
  - destruct (router_keeps ctx r db id t Ht)
      as [H | (u & t' & _ & _ & _ & H & He)].
    + exists t. split; [done |]. by repeat split.
    + exists t'. split; [done |]. apply He.
Qed.

Lemma stored_ticket_frame_witness :
  exists t',
    (router (as_user agent_l1 9)
       (PostEscalate "t1" {| eb_toLevel := L2; eb_reason := "Complex issue";
                             eb_notes := None |}) sample_db).2 !! "t1"
    = Some t'
    /\ same_descriptive (sample_ticket L1 New None 1) t'.
Proof.
  apply (stored_ticket_frame (as_user agent_l1 9)
           (PostEscalate "t1" {| eb_toLevel := L2;
                                 eb_reason := "Complex issue";
                                 eb_notes := None |})
           sample_db "t1" (sample_ticket L1 New None 1)).
  reflexivity.
Defined.

(** X3: the level of a stored ticket changes only by a successful
    escalation of that ticket, and then by exactly one step up; every other
    request leaves it where it was. *)
Theorem level_moves_one_step_up (ctx : Context) (r : Request)
    (db : gmap string Ticket) (id : string) (t t' : Ticket) :
  db !! id = Some t ->
  (router ctx r db).2 !! id = Some t' ->
  currentLevel t' = currentLevel t
  \/ (is_escalate r = true /\ subject r db = Some id
      /\ success (router ctx r db).1 = true
      /\ level_rank (currentLevel t') = S (level_rank (currentLevel t))).
Proof.
  intros Ht Ht'.
  destruct (router_keeps ctx r db id t Ht)
    as [H | (u & t'' & _ & Hs & Hsub & H & He)];
    rewrite H in Ht'; injection Ht' as <-; [by left |].
  destruct He as (_ & _ & _ & He).
  destruct (is_escalate r); [| by left; apply He].
  right. split_and!; try done.
  destruct He as (_ & _ & _ & _ & [[-> ->] | (-> & -> & _)]); done.
Qed.

Lemma level_moves_one_step_up_witness :
  exists t',
    (router (as_user support_l2 9)
       (PostEscalate "t2" {| eb_toLevel := L3; eb_reason := "Critical issue";
                             eb_notes := None |}) sample_db).2 !! "t2"
    = Some t'
    /\ level_rank (currentLevel t') = 3.
Proof.
  eexists. split; [vm_compute; reflexivity |].
  destruct (level_moves_one_step_up (as_user support_l2 9)
              (PostEscalate "t2" {| eb_toLevel := L3;
                                    eb_reason := "Critical issue";
                                    eb_notes := None |})
              sample_db "t2" (sample_ticket L2 Attending (Some C1) 2) _
              eq_refl ltac:(vm_compute; reflexivity))
    as [He | (_ & _ & _ & He)].
  - discriminate He.
  - exact He.
Defined.

(** ** Invariants of the collections the router builds *)

Lemma run_reachable (reqs : list (Context * Request))
    (db : gmap string Ticket) :
  reachable db -> reachable (run reqs db).
Proof.
  revert db. induction reqs as [| [ctx r] reqs IH]; intros db Hdb; [done |].
  simpl. apply IH. by apply reachable_step.
Qed.

(** An invariant of single tickets that new tickets have and edits keep
    holds of every ticket in every reachable collection. *)
Lemma reachable_ticket_invariant (P : Ticket -> Prop) :
  (forall ctx u body, P (new_ticket ctx u body)) ->
  (forall ctx u r t t', edited ctx u r t t' -> P t -> P t') ->
  forall db id t, reachable db -> db !! id = Some t -> P t.
Proof.
  intros Hnew Hedit db id t Hreach. revert id t.
  induction Hreach as [| ctx r db _ IH]; intros id t Ht.
  - by rewrite lookup_empty in Ht.
  - destruct (router_controller ctx r db) as [He | [_ He]];
      rewrite He in Ht; [| by eapply IH].
    destruct (controller_step ctx r db)
      as [[_ Hd] | [[_ Hd] | (u & id' & _ & _ & _ & Hw)]];
      try (rewrite Hd in Ht; by eapply IH).
    destruct Hw as [(body & _ & _ & _ & Hd) | (t0 & t' & Ht0 & Hd & Hed)];
      rewrite Hd in Ht;
      (destruct (decide (id' = id)) as [-> | Hne];
       [ rewrite lookup_insert_eq in Ht; injection Ht as <-
       | rewrite lookup_insert_ne in Ht by done; by eapply IH ]).
    + apply Hnew.
    + eapply Hedit; [exact Hed |]. by eapply IH.
Qed.

Lemma reachable_l3_critical (db : gmap string Ticket) (id : string)
    (t : Ticket) :
  reachable db -> db !! id = Some t -> l3_critical t.
Proof.
  intros Hreach Ht.
  apply (reachable_ticket_invariant l3_critical) with (db := db) (id := id);
    [by intros ctx u body Hl | | done | done].
  intros ctx u r t0 t' (_ & _ & _ & He) Hinv Hl'.
  destruct (is_escalate r).
  - destruct He as (_ & _ & -> & _ & [[_ Hl2] | (_ & _ & Hc)]);
      [congruence | done].
  - destruct He as (Hl & _ & [-> | [_ Hn3]]); [| congruence].
    apply Hinv. congruence.
Qed.

(** X4: in every collection the router can build from an empty one, a
    ticket at L3 carries the criticalValue C1 or C2; it is never unset
    there. *)
Theorem reachable_l3_ticket_is_critical (db : gmap string Ticket)
    (id : string) (t : Ticket) :
  reachable db ->
  db !! id = Some t ->
  currentLevel t = L3 ->
  criticalValue t = Some C1 \/ criticalValue t = Some C2.
Proof. intros Hreach Ht. exact (reachable_l3_critical db id t Hreach Ht). Qed.

Lemma lifecycle_reachable : reachable (run lifecycle ∅).
Proof. apply run_reachable, reachable_empty. Defined.

Lemma reachable_l3_ticket_is_critical_witness :
  exists t,
    run lifecycle ∅ !! new_id ∅ = Some t
    /\ currentLevel t = L3
    /\ (criticalValue t = Some C1 \/ criticalValue t = Some C2).
Proof.
  eexists. split; [vm_compute; reflexivity |]. split; [reflexivity |].
  eapply (reachable_l3_ticket_is_critical (run lifecycle ∅) (new_id ∅)).
  - exact lifecycle_reachable.
  - vm_compute. reflexivity.
  - reflexivity.
Defined.

(** X5: in every collection the router can build from an empty one, the
    audit trail of a ticket agrees with the ticket: the (from, to) pairs of
    its escalation history are exactly the steps from L1 to its current
    level, and its action log starts with the entry "Ticket created" by the
    ticket's creator. *)
Theorem reachable_trail_matches_ticket (db : gmap string Ticket)
    (id : string) (t : Ticket) :
  reachable db ->
  db !! id = Some t ->
  map (fun e => (fromLevel e, toLevel e)) (escalationHistory t)
  = level_path (currentLevel t)
  /\ exists a rest,
       actionLogs t = a :: rest
       /\ action a = "Ticket created" /\ performedBy a = createdBy t.
Proof.
  intros Hreach Ht.
  apply (reachable_ticket_invariant trail_ok) with (db := db) (id := id);
    [| | done | done].
  - intros ctx u body. split; [done |]. eexists _, _. by split_and!.
  - intros ctx u r t0 t' (Hd & _ & (a' & Hlogs & _) & He) [Hpath Hfirst].
    split.
    + destruct (is_escalate r).
      * destruct He as (_ & _ & _ & (e & -> & Hf & Hto & _) & Hstep).
        rewrite map_app, Hpath. simpl. rewrite Hf, Hto.
        destruct Hstep as [[-> ->] | (-> & -> & _)]; done.
      * destruct He as (-> & -> & _). done.
    + destruct Hfirst as (a & rest & Hl & Ha & Hby).
      exists a, (rest ++ [a'])%list. rewrite Hlogs, Hl. split_and!; try done.
      destruct Hd as (_ & _ & _ & _ & _ & -> & _). done.
Qed.

Lemma reachable_trail_matches_ticket_witness :
  exists t,
    run lifecycle ∅ !! new_id ∅ = Some t
    /\ map (fun e => (fromLevel e, toLevel e)) (escalationHistory t)
       = [(L1, L2); (L2, L3)]
    /\ exists a rest,
         actionLogs t = a :: rest
         /\ action a = "Ticket created" /\ performedBy a = "u1".
Proof.
  eexists. split; [vm_compute; reflexivity |].
  eapply (reachable_trail_matches_ticket (run lifecycle ∅) (new_id ∅)).
  - exact lifecycle_reachable.
  - vm_compute. reflexivity.
Defined.

(** ** Who wrote what *)

(** X6: a mutating request that succeeds leaves, as the last entry of its
    ticket's action log, an entry performed by the actor at the time of the
    request, and stamps the ticket's [updatedAt] with that time. *)
Theorem audit_entry_names_actor (ctx : Context) (r : Request)
    (db : gmap string Ticket) (id : string) :
  subject r db = Some id ->
  success (router ctx r db).1 = true ->
  exists u t' a,
    user ctx = Some u
    /\ (router ctx r db).2 !! id = Some t'
    /\ last (actionLogs t') = Some a
    /\ performedBy a = user_id u /\ performedAt a = now ctx
    /\ updatedAt t' = now ctx.
Proof.
  intros Hsub Hok. pose proof (router_success _ _ _ Hok) as He.
  rewrite He in Hok |- *. clear He.
  destruct (controller_step ctx r db)
    as [[Hf _] | [[Hread _] | (u & id' & _ & Hu & Hsub' & Hw)]].
  - congruence.
  - destruct r; done.
  - rewrite Hsub in Hsub'. injection Hsub' as <-.
    destruct Hw as [(body & _ & _ & _ & ->) | (t & t' & _ & -> & He)].
    + exists u, (new_ticket ctx u body). eexists.
      rewrite lookup_insert_eq. by split_and!.
    + destruct He as (_ & Hup & (a & Hlogs & Hby & Hat) & _).
      exists u, t', a. rewrite lookup_insert_eq, Hlogs, last_snoc.
      by split_and!.
Qed.

Lemma audit_entry_names_actor_witness :
  exists t' a,
    (router (as_user support_l2 7) (PatchCriticalValue "t2" (Some "C2"))
       sample_db).2 !! "t2" = Some t'
    /\ last (actionLogs t') = Some a
    /\ performedBy a = "u2" /\ performedAt a = 7%Z /\ updatedAt t' = 7%Z.
Proof.
  destruct (audit_entry_names_actor (as_user support_l2 7)
              (PatchCriticalValue "t2" (Some "C2")) sample_db "t2")
    as (u & t' & a & Hu & Ht' & Hlast & Hby & Hat & Hup).
  - reflexivity.
  - vm_compute. reflexivity.
  - injection Hu as <-. exists t', a. by split_and!.
Defined.

(** ** Escalate *)




(** ** Assigning criticality *)


Lemma critical_of_string_Some (v : string) (c : CriticalValue) :
  critical_of_string v = Some c -> v = critical_name c.
Proof.
  unfold critical_of_string.
  destruct (String.eqb_spec v "C1") as [-> | _]; [by intros [= <-] |].
  destruct (String.eqb_spec v "C2") as [-> | _]; [by intros [= <-] |].
  destruct (String.eqb_spec v "C3") as [-> | _]; [by intros [= <-] | done].
Qed.






(** ** Action logs *)




(** ** Status updates *)




(** ** After resolution and after escalation *)







(** ** Viewing and listing *)

Lemma find_elem (filter : gmap string FilterValue) (db : gmap string Ticket)
    (id : string) (t : Ticket) :
  (id, t) ∈ find filter db <-> db !! id = Some t /\ matches filter t = true.
Proof.
  unfold find. rewrite list_elem_of_In, filter_In, <- list_elem_of_In.
  by rewrite elem_of_map_to_list.
Qed.

Lemma matches_singleton (k : string) (v : FilterValue) (t : Ticket) :
  matches (<[k := v]> ∅) t
  = match v with
    | Cond c => holds t k c
    | AndOf cs => forallb (fun pc : string * Clause => holds t pc.1 pc.2) cs
    end.
Proof.
  unfold matches. rewrite insert_empty, map_to_list_singleton. simpl.
  by rewrite andb_true_r.
Qed.

Lemma matches_lookup_and (filter : gmap string FilterValue) (t : Ticket)
    (k : string) (cs : list (string * Clause)) :
  matches filter t = true -> filter !! k = Some (AndOf cs) ->
  forallb (fun pc : string * Clause => holds t pc.1 pc.2) cs = true.
Proof.
  unfold matches. rewrite forallb_forall. intros Hall Hk.
  apply (Hall (k, AndOf cs)).
  apply list_elem_of_In, elem_of_map_to_list. exact Hk.
Qed.

(** Whom [getTicketById] lets see a ticket. *)
Lemma view_cases (ctx : Context) (u : AuthUser) (id : string)
    (db : gmap string Ticket) (t : Ticket) :
  user ctx = Some u ->
  db !! id = Some t ->
  let canView :=
    (role u = "L1" /\ createdBy t = user_id u)
    \/ (role u = "L2" /\ currentLevel t <> L1)
    \/ (role u = "L3" /\ currentLevel t = L3
        /\ (criticalValue t = Some C1 \/ criticalValue t = Some C2)) in
  (canView /\ matches (role_filter u) t = true
   /\ getTicketById ctx id db
      = (ok 200 "Ticket retrieved successfully" (TicketData t), db))
  \/ (~ canView
      /\ (role u ∈ ["L1"; "L2"; "L3"] -> matches (role_filter u) t = false)
      /\ getTicketById ctx id db
         = (failure 403 "Access denied"
              ["You do not have permission to view this ticket"], db)).
Proof.
  intros Hu Ht. unfold getTicketById, role_filter. rewrite Hu, Ht.
  role_cases u; simpl; rewrite ?matches_singleton; unfold holds, field; simpl.
  - destruct (String.eqb_spec (createdBy t) (user_id u)) as [He | Hne];
      [left | right]; split_and!; try done; [auto | intuition congruence].
  - destruct (currentLevel t) eqn:Hl; simpl;
      [right | left | left]; split_and!; try done;
      try (right; left; split; [done | congruence]);
      intuition congruence.
  - destruct (currentLevel t) eqn:Hl; simpl;
      try (right; split_and!; try done; intuition congruence);
      destruct (criticalValue t) as [[] |] eqn:Hc; simpl;
      try (right; split_and!; try done; intuition congruence);
      (left; split_and!; try done; auto 10).
  - right. split_and!; [intuition congruence | | done].
    rewrite !elem_of_cons, elem_of_nil. intuition congruence.
Qed.

(** X15: [getTicketById] answers 200 with the stored ticket exactly to its
    creator if the actor is L1, for a ticket at L2 or L3 if the actor is
    L2, and for a ticket at L3 with C1 or C2 if the actor is L3, and 403
    otherwise; it never writes.  For these three roles that is the role
    condition of the listing: a stored ticket satisfies the query document
    of [getTickets] without query parameters exactly when the actor may
    fetch it.  An actor with any other role matches every ticket in the
    listing and may fetch none. *)
Theorem view_agrees_with_role_filter (ctx : Context) (u : AuthUser)
    (id : string) (db : gmap string Ticket) (t : Ticket) :
  user ctx = Some u ->
  db !! id = Some t ->
  let out := getTicketById ctx id db in
  let canView :=
    (role u = "L1" /\ createdBy t = user_id u)
    \/ (role u = "L2" /\ currentLevel t <> L1)
    \/ (role u = "L3" /\ currentLevel t = L3
        /\ (criticalValue t = Some C1 \/ criticalValue t = Some C2)) in
  (httpStatus out.1 = 200%Z <-> canView)
  /\ (canView -> data out.1 = TicketData t)
  /\ (~ canView -> httpStatus out.1 = 403%Z)
  /\ out.2 = db
  /\ (role u ∈ ["L1"; "L2"; "L3"] ->
      ((id, t) ∈ find (role_filter u) db <-> httpStatus out.1 = 200%Z))
  /\ (role u ∉ ["L1"; "L2"; "L3"] ->
      (id, t) ∈ find (role_filter u) db /\ httpStatus out.1 = 403%Z).
Proof.
  intros Hu Ht out canView. subst out canView.
  destruct (view_cases ctx u id db t Hu Ht)
    as [(Hyes & Hm & ->) | (Hno & Hm & ->)]; simpl.
  - split_and!; try done.
    + intros _. split; [done |]. intros _. by apply find_elem.
    + intros Hr. exfalso. apply Hr.
      rewrite !elem_of_cons. destruct Hyes as [[-> _] | [[-> _] | [-> _]]];
        auto.
  - split_and!; try done.
    + intros Hr. rewrite find_elem, (Hm Hr). split; [| done].
      intros [_ H]. done.
    + intros Hr. split; [| done]. apply find_elem. split; [done |].
      unfold role_filter. rewrite !not_elem_of_cons in Hr.
      destruct Hr as (H1 & H2 & H3 & _).
      apply String.eqb_neq in H1, H2, H3. by rewrite H1, H2, H3.
Qed.

Lemma view_agrees_with_role_filter_witness :
  httpStatus (getTicketById (as_user support_l2 9) "t1" sample_db).1 = 403%Z
  /\ ("t1", sample_ticket L1 New None 1) ∈ find (role_filter admin_user)
                                              sample_db.
Proof.
  split.
  - pose proof (view_agrees_with_role_filter (as_user support_l2 9)
                  support_l2 "t1" sample_db (sample_ticket L1 New None 1)
                  eq_refl eq_refl) as (_ & _ & Hdeny & _).
    apply Hdeny. simpl.
    intros [[H _] | [[_ H] | [H _]]]; [discriminate H | by apply H
                                      | discriminate H].
  - pose proof (view_agrees_with_role_filter (as_user admin_user 9)
                  admin_user "t1" sample_db (sample_ticket L1 New None 1)
                  eq_refl eq_refl) as (_ & _ & _ & _ & _ & Hother).
    apply Hother. simpl. apply (bool_decide_unpack _). vm_compute. exact I.
Defined.

Lemma filter_sublist {A} (f : A -> bool) (l : list A) :
  List.filter f l `sublist_of` l.
Proof.
  induction l as [| x l IH]; simpl; [constructor |].
  destruct (f x); by constructor.
Qed.

Lemma skip_limit_sublist {A} (skip limit : Z) (l l' : list A) :
  skip_limit skip limit l = Some l' -> l' `sublist_of` l.
Proof.
  unfold skip_limit. destruct (skip <? 0)%Z; [done |].
  intros [= <-]. destruct (limit =? 0)%Z.
  - apply sublist_drop.
  - etrans; [apply sublist_take | apply sublist_drop].
Qed.

Lemma StronglySorted_sublist {A} (R : relation A) (l1 l2 : list A) :
  l1 `sublist_of` l2 -> StronglySorted R l2 -> StronglySorted R l1.
Proof.
  induction 1 as [| x l1 l2 Hsub IH | x l1 l2 Hsub IH]; intros Hs.
  - done.
  - apply StronglySorted_inv in Hs as [Hs Hall]. constructor; [by apply IH |].
    rewrite Forall_forall in *. intros y Hy. apply Hall.
    by eapply elem_of_sublist.
  - apply StronglySorted_inv in Hs as [Hs _]. by apply IH.
Qed.

#[local] Instance newer_first_trans : Transitive newer_first.
Proof. intros a b c. unfold newer_first. lia. Qed.

#[local] Instance newer_first_total : Total newer_first.
Proof. intros a b. unfold newer_first. lia. Qed.

(** What [getTickets] lists comes out of [find] on the query document. *)
Lemma listed_from_find (ctx : Context) (u : AuthUser) (q : ListQuery)
    (db : gmap string Ticket) (tickets : list (string * Ticket))
    (total : nat) :
  user ctx = Some u ->
  data (getTickets ctx q db).1 = TicketsData tickets total ->
  total = length (find (build_filter u q) db)
  /\ skip_limit ((default 1 (q_page q) - 1) * default 10 (q_limit q))%Z
       (default 10%Z (q_limit q))
       (merge_sort newer_first (find (build_filter u q) db))
     = Some tickets.
Proof.
  intros Hu. unfold getTickets. rewrite Hu.
  destruct (skip_limit _ _ _) as [l |] eqn:Hsl; [| done].
  simpl. by intros [= <- <-].
Qed.

Lemma listed_matches (ctx : Context) (u : AuthUser) (q : ListQuery)
    (db : gmap string Ticket) (tickets : list (string * Ticket))
    (total : nat) (d : string * Ticket) :
  user ctx = Some u ->
  data (getTickets ctx q db).1 = TicketsData tickets total ->
  d ∈ tickets ->
  db !! d.1 = Some d.2 /\ matches (build_filter u q) d.2 = true.
Proof.
  intros Hu Hdata Hd.
  destruct (listed_from_find ctx u q db tickets total Hu Hdata) as [_ Hsl].
  eapply skip_limit_elem in Hd; [| exact Hsl].
  rewrite merge_sort_Permutation in Hd. by apply find_matches.
Qed.

Lemma build_filter_other_key (u : AuthUser) (q : ListQuery) (k : string) :
  k <> "status" -> k <> "priority" -> k <> "currentLevel" ->
  build_filter u q !! k = role_filter u !! k.
Proof.
  intros H1 H2 H3. unfold build_filter, assign_if.
  destruct (truthy (q_level q)), (truthy (q_priority q)),
    (truthy (q_status q)); by rewrite ?lookup_insert_ne.
Qed.

(** X16: whatever the query parameters, an L1 actor is listed only tickets
    it created, and an L3 actor only tickets at L3 with C1 or C2: no
    parameter replaces the keys these two role conditions sit on. *)
Theorem l1_and_l3_listing_scope (ctx : Context) (u : AuthUser)
    (q : ListQuery) (db : gmap string Ticket)
    (tickets : list (string * Ticket)) (total : nat) (d : string * Ticket) :
  user ctx = Some u ->
  data (getTickets ctx q db).1 = TicketsData tickets total ->
  d ∈ tickets ->
  db !! d.1 = Some d.2
  /\ (role u = "L1" -> createdBy d.2 = user_id u)
  /\ (role u = "L3" ->
      currentLevel d.2 = L3
      /\ (criticalValue d.2 = Some C1 \/ criticalValue d.2 = Some C2)).
Proof.
  intros Hu Hdata Hd.
  destruct (listed_matches ctx u q db tickets total d Hu Hdata Hd)
    as [Hdb Hm].
  split_and!; [done | |]; intros Hr.
  - assert (build_filter u q !! "createdBy"
            = Some (Cond (Equals (user_id u)))) as Hk.
    { rewrite build_filter_other_key by done.
      unfold role_filter. rewrite Hr. simpl. apply lookup_insert_eq. }
    pose proof (matches_lookup _ _ _ _ Hm Hk) as Hh.
    unfold holds, field in Hh. simpl in Hh. by apply String.eqb_eq.
  - assert (build_filter u q !! "$and"
            = Some (AndOf [("currentLevel", Equals "L3");
                           ("criticalValue", AnyOf ["C1"; "C2"])])) as Hk.
    { rewrite build_filter_other_key by done.
      unfold role_filter. rewrite Hr. simpl. apply lookup_insert_eq. }
    pose proof (matches_lookup_and _ _ _ _ Hm Hk) as Hh.
    unfold holds, field in Hh. simpl in Hh.
    destruct (currentLevel d.2); simpl in Hh; try done.
    destruct (criticalValue d.2) as [[] |]; simpl in Hh; try done; auto.
Qed.

Lemma l1_and_l3_listing_scope_witness :
  let q := {| q_status := Some "Attending"; q_priority := None;
              q_level := Some "L3"; q_page := None; q_limit := None |} in
  let d := ("t3", sample_ticket L3 Attending (Some C1) 3) in
  data (getTickets (as_user advanced_l3 9) q sample_db).1
  = TicketsData [d] 1
  /\ sample_db !! d.1 = Some d.2
  /\ currentLevel d.2 = L3.
Proof.
  intros q d.
  assert (data (getTickets (as_user advanced_l3 9) q sample_db).1
          = TicketsData [d] 1) as Hdata by (vm_compute; reflexivity).
  split; [exact Hdata |].
  assert (d ∈ [d]) as Hin by apply list_elem_of_here.
  pose proof (l1_and_l3_listing_scope (as_user advanced_l3 9) advanced_l3 q
                sample_db [d] 1 d eq_refl Hdata Hin) as (Hdb & _ & Hl3).
  split; [exact Hdb |]. apply Hl3. reflexivity.
Defined.

Lemma assign_if_lookup (k : string) (v : option string)
    (filter : gmap string FilterValue) :
  truthy v = true -> exists s, v = Some s
                               /\ assign_if k v filter !! k
                                  = Some (Cond (Equals s)).
Proof.
  intros Hv. unfold assign_if. rewrite Hv.
  destruct v as [s |]; [| done]. exists s. split; [done |].
  apply lookup_insert_eq.
Qed.

Lemma build_filter_params (u : AuthUser) (q : ListQuery) :
  (truthy (q_status q) = true ->
   exists s, q_status q = Some s
             /\ build_filter u q !! "status" = Some (Cond (Equals s)))
  /\ (truthy (q_priority q) = true ->
      exists s, q_priority q = Some s
                /\ build_filter u q !! "priority" = Some (Cond (Equals s)))
  /\ (truthy (q_level q) = true ->
      exists s, q_level q = Some s
                /\ build_filter u q !! "currentLevel"
                   = Some (Cond (Equals s))).
Proof.
  unfold build_filter. split_and!; intros Hv.
  - destruct (assign_if_lookup "status" (q_status q) (role_filter u) Hv)
      as (s & Hs & Hk).
    exists s. split; [done |]. unfold assign_if at 1 2.
    destruct (truthy (q_level q)), (truthy (q_priority q));
      by rewrite ?lookup_insert_ne.
  - destruct (assign_if_lookup "priority" (q_priority q)
                (assign_if "status" (q_status q) (role_filter u)) Hv)
      as (s & Hs & Hk).
    exists s. split; [done |]. unfold assign_if at 1.
    destruct (truthy (q_level q)); by rewrite ?lookup_insert_ne.
  - by apply assign_if_lookup.
Qed.

(** X17: what a listing returns.  The tickets come newest first by
    creation time, no document twice, each a stored document; each has the
    status, the priority and the level of the query parameters that are
    present and not empty; they are no more than the total reported, and
    no more than a positive limit (10 when the query has none). *)
Theorem listing_order_filters_and_bounds (ctx : Context) (u : AuthUser)
    (q : ListQuery) (db : gmap string Ticket)
    (tickets : list (string * Ticket)) (total : nat) :
  user ctx = Some u ->
  data (getTickets ctx q db).1 = TicketsData tickets total ->
  StronglySorted newer_first tickets
  /\ NoDup tickets.*1
  /\ (forall d, d ∈ tickets ->
        db !! d.1 = Some d.2
        /\ (truthy (q_status q) = true ->
            q_status q = Some (status_name (status d.2)))
        /\ (truthy (q_priority q) = true ->
            q_priority q = Some (priority_name (priority d.2)))
        /\ (truthy (q_level q) = true ->
            q_level q = Some (level_name (currentLevel d.2))))
  /\ length tickets <= total
  /\ ((0 < default 10 (q_limit q))%Z ->
      length tickets <= Z.to_nat (default 10%Z (q_limit q))).
Proof.
  intros Hu Hdata.
  destruct (listed_from_find ctx u q db tickets total Hu Hdata) as [-> Hsl].
  pose proof (skip_limit_sublist _ _ _ _ Hsl) as Hsub.
  split_and!.
  - eapply StronglySorted_sublist; [exact Hsub |].
    apply StronglySorted_merge_sort; apply _.
  - assert (NoDup (find (build_filter u q) db).*1) as Hnd.
    { unfold find.
      apply (sublist_NoDup _ (map_to_list db).*1);
        [apply NoDup_fst_map_to_list | apply fmap_sublist, filter_sublist]. }
    rewrite <- (merge_sort_Permutation newer_first) in Hnd.
    apply (sublist_NoDup _ _ Hnd). by apply fmap_sublist.
  - intros d Hd.
    destruct (listed_matches ctx u q db tickets _ d Hu Hdata Hd) as [Hdb Hm].
    destruct (build_filter_params u q) as (Hst & Hpr & Hlv).
    split_and!; [done | | |]; intros Hv.
    + destruct (Hst Hv) as (s & -> & Hk).
      pose proof (matches_lookup _ _ _ _ Hm Hk) as Hh.
      unfold holds, field in Hh. simpl in Hh.
      apply String.eqb_eq in Hh. by rewrite Hh.
    + destruct (Hpr Hv) as (s & -> & Hk).
      pose proof (matches_lookup _ _ _ _ Hm Hk) as Hh.
      unfold holds, field in Hh. simpl in Hh.
      apply String.eqb_eq in Hh. by rewrite Hh.
    + destruct (Hlv Hv) as (s & -> & Hk).
      pose proof (matches_lookup _ _ _ _ Hm Hk) as Hh.
      unfold holds, field in Hh. simpl in Hh.
      apply String.eqb_eq in Hh. by rewrite Hh.
  - apply sublist_length in Hsub.
    by rewrite (Permutation_length (merge_sort_Permutation _ _)) in Hsub.
  - intros Hpos. revert Hsl. unfold skip_limit.
    destruct (_ <? 0)%Z; [done |]. intros [= <-].
    destruct (Z.eqb_spec (default 10%Z (q_limit q)) 0) as [He | _]; [lia |].
    rewrite length_take. lia.
Qed.

Lemma listing_order_filters_and_bounds_witness :
  let q := {| q_status := Some "Attending"; q_priority := None;
              q_level := None; q_page := None; q_limit := Some 1%Z |} in
  let tickets := [("t3", sample_ticket L3 Attending (Some C1) 3)] in
  data (getTickets (as_user support_l2 9) q sample_db).1
  = TicketsData tickets 2
  /\ length tickets <= 1
  /\ forall d, d ∈ tickets -> status_name (status d.2) = "Attending".
Proof.
  intros q tickets.
  assert (data (getTickets (as_user support_l2 9) q sample_db).1
          = TicketsData tickets 2) as Hdata by (vm_compute; reflexivity).
  split; [exact Hdata |].
  pose proof (listing_order_filters_and_bounds (as_user support_l2 9)
                support_l2 q sample_db tickets 2 eq_refl Hdata)
    as (_ & _ & Hall & _ & Hlen).
  split.
  - apply Hlen. reflexivity.
  - intros d Hd. destruct (Hall d Hd) as (_ & Hst & _).
    specialize (Hst eq_refl). simpl in Hst. by injection Hst as <-.
Defined.

(** ** The role middleware in front of the controllers *)

(** The messages of the controllers' own whole-role refusals. *)
Ltac other_message :=
  simpl; apply (bool_decide_unpack _); vm_compute; exact I.

Ltac handler_leaves :=
  repeat (case_match; simpl); other_message.

Lemma member_cases (x : string) (l : list string) :
  bool_decide (x ∈ l) = true -> x ∈ l.
Proof. apply bool_decide_eq_true. Qed.

(** X18: through the router no answer carries the message of a
    controller's own whole-role refusal ("Only L1 agents can create
    tickets", "Only L2 agents can update critical value", "L3 is the
    highest level, cannot escalate further", "Only L1, L2, and L3 agents
    can resolve tickets"): the role middleware of the route answers such a
    request first, with 403.  At the controller alone an L3 actor's
    escalation is answered with the third message and 400. *)
Theorem router_preempts_controller_role_refusals (ctx : Context)
    (r : Request) (db : gmap string Ticket) :
  (message (router ctx r db).1
   ∉ [ "Only L1 agents can create tickets";
       "Only L2 agents can update critical value";
       "L3 is the highest level, cannot escalate further";
       "Only L1, L2, and L3 agents can resolve tickets" ])
  /\ (forall u id body,
        user ctx = Some u -> role u = "L3" ->
        r = PostEscalate id body -> is_Some (db !! id) ->
        httpStatus (router ctx r db).1 = 403%Z
        /\ httpStatus (controller ctx r db).1 = 400%Z
        /\ message (controller ctx r db).1
           = "L3 is the highest level, cannot escalate further").
Proof.
  split.
  - unfold router, authorizeRoles.
    destruct r; simpl.
    + destruct (user ctx) as [u |] eqn:Hu; [| other_message].
      destruct (bool_decide (role u ∈ ["L1"])) eqn:Hm; [| other_message].
      apply member_cases, list_elem_of_singleton in Hm.
      unfold createTicket. rewrite Hu, Hm. other_message.
    + unfold getTickets. handler_leaves.
    + unfold getTicketById. handler_leaves.
    + unfold updateTicketStatus. handler_leaves.
    + destruct (user ctx) as [u |] eqn:Hu; [| other_message].
      destruct (bool_decide (role u ∈ ["L2"])) eqn:Hm; [| other_message].
      apply member_cases, list_elem_of_singleton in Hm.
      unfold updateCriticalValue. rewrite Hu, Hm. handler_leaves.
    + destruct (user ctx) as [u |] eqn:Hu; [| other_message].
      destruct (bool_decide (role u ∈ ["L1"; "L2"])) eqn:Hm;
        [| other_message].
      apply member_cases in Hm. rewrite !elem_of_cons, elem_of_nil in Hm.
      unfold escalateTicket. rewrite Hu.
      destruct (db !! id) as [t |]; [| other_message].
      destruct Hm as [Hm | [Hm | []]]; rewrite Hm;
        destruct (currentLevel t), (eb_toLevel body);
        destruct (criticalValue t) as [[] |]; simpl;
        handler_leaves.
    + destruct (user ctx) as [u |] eqn:Hu; [| other_message].
      destruct (bool_decide (role u ∈ ["L1"; "L2"; "L3"])) eqn:Hm;
        [| other_message].
      unfold addActionLog. rewrite Hu. handler_leaves.
    + destruct (user ctx) as [u |] eqn:Hu; [| other_message].
      destruct (bool_decide (role u ∈ ["L1"; "L2"; "L3"])) eqn:Hm;
        [| other_message].
      unfold resolveTicket. rewrite Hu, Hm. simpl.
      apply member_cases, agent_role_cases in Hm.
      destruct (db !! id) as [t |]; [| other_message].
      destruct Hm as [Hm | [Hm | Hm]]; rewrite Hm;
        destruct (currentLevel t);
        destruct (criticalValue t) as [[] |]; simpl;
        handler_leaves.
  - intros u id body Hu Hr -> [t Ht]. unfold router, authorizeRoles. simpl.
    unfold escalateTicket. rewrite Hu, Hr, Ht. simpl.
    by destruct (eb_toLevel body).
Qed.

Lemma router_preempts_controller_role_refusals_witness :
  let r := PostEscalate "t3" {| eb_toLevel := L3; eb_reason := "Again";
                                eb_notes := None |} in
  httpStatus (router (as_user advanced_l3 9) r sample_db).1 = 403%Z
  /\ httpStatus (controller (as_user advanced_l3 9) r sample_db).1 = 400%Z
  /\ message (controller (as_user advanced_l3 9) r sample_db).1
     = "L3 is the highest level, cannot escalate further".
Proof.
  intros r.
  apply (proj2 (router_preempts_controller_role_refusals
                  (as_user advanced_l3 9) r sample_db)
           advanced_l3 "t3"
           {| eb_toLevel := L3; eb_reason := "Again"; eb_notes := None |}
           eq_refl eq_refl eq_refl).
  exists (sample_ticket L3 Attending (Some C1) 3). reflexivity.
Defined.

(** ** Creation *)



(** ** Requests without an actor or without a ticket *)





(** ** Order and content of log entries *)

(** X22: two action logs added one after the other end up last in the
    ticket's action log in the order of the calls, whatever their times,
    after all the entries that were there. *)
Theorem action_logs_keep_call_order (ctx1 ctx2 : Context) (id : string)
    (b1 b2 : ActionLogBody) (db : gmap string Ticket) :
  success (addActionLog ctx1 id b1 db).1 = true ->
  let db1 := (addActionLog ctx1 id b1 db).2 in
  success (addActionLog ctx2 id b2 db1).1 = true ->
  let db2 := (addActionLog ctx2 id b2 db1).2 in
  exists a1 a2,
    logs_of db2 id = (logs_of db id ++ [a1; a2])%list
    /\ action a1 = ab_action b1 /\ details a1 = ab_details b1
    /\ performedAt a1 = now ctx1
    /\ action a2 = ab_action b2 /\ details a2 = ab_details b2
    /\ performedAt a2 = now ctx2.
Proof.
  intros Hs1 db1 Hs2 db2. subst db2.
  destruct (log_step _ _ _ _ Hs2)
    as (u2 & t1 & t2 & a2 & _ & Ht1 & -> & _ & Hl2 & Ha2 & Hd2 & _ & _ & _
        & _ & Hed2).
  subst db1.
  destruct (log_step _ _ _ _ Hs1)
    as (u1 & t & t1' & a1 & _ & Ht & Hdb1 & _ & Hl1 & Ha1 & Hd1 & _ & _ & _
        & _ & Hed1).
  rewrite Hdb1, lookup_insert_eq in Ht1. injection Ht1 as <-.
  destruct Hed1 as (_ & _ & (a1' & Hl1' & _ & Hat1) & _).
  destruct Hed2 as (_ & _ & (a2' & Hl2' & _ & Hat2) & _).
  rewrite Hl1 in Hl1'. apply app_inj_tail in Hl1' as [_ <-].
  rewrite Hl2 in Hl2'. apply app_inj_tail in Hl2' as [_ <-].
  exists a1, a2. unfold logs_of. rewrite lookup_insert_eq, Ht. simpl.
  rewrite Hl2, Hl1, <- app_assoc. by split_and!.
Qed.

Lemma action_logs_keep_call_order_witness :
  let b1 := {| ab_action := "first"; ab_details := None |} in
  let b2 := {| ab_action := "second"; ab_details := None |} in
  let db1 := (addActionLog (as_user agent_l1 5) "t1" b1 sample_db).2 in
  let db2 := (addActionLog (as_user agent_l1 5) "t1" b2 db1).2 in
  exists a1 a2,
    logs_of db2 "t1" = (logs_of sample_db "t1" ++ [a1; a2])%list
    /\ action a1 = "first" /\ action a2 = "second"
    /\ performedAt a1 = performedAt a2.
Proof.
  intros b1 b2 db1 db2.
  destruct (action_logs_keep_call_order (as_user agent_l1 5)
              (as_user agent_l1 5) "t1" b1 b2 sample_db)
    as (a1 & a2 & Hl & Ha1 & _ & Hat1 & Ha2 & _ & Hat2).
  - vm_compute. reflexivity.
  - vm_compute. reflexivity.
  - exists a1, a2. split_and!; try done. by rewrite Hat1, Hat2.
Defined.


